(** * localGPT/model/loader.py: the ModelLoader class

    A shallow embedding of [ModelLoader] (src/localGPT/model/loader.py) and
    the properties of its construction, its four loading strategies, the
    pipeline assembly and the dispatch in [load_model].

    Conventions of the embedding.
    - A Python [str] is a [string]; a character is a code point below 256.
    - A Python object handed around by the program is a [value].
    - The external libraries (transformers, auto_gptq, langchain) are an
      oracle [extern] over an abstract [World]: a call may return a value,
      raise an exception or end the process, and may change the world.
    - A method is a function from the state before (the attributes of
      [self] and the world) to an outcome, the state after and the events
      emitted on the way (log records and external calls, in order).
    - [sys.exit(n)] is the outcome [Exited n]. *)

From Stdlib Require Import Ascii QArith.
From stdpp Require Import gmap strings list fin_maps.

#[local] Set Warnings "-register-all".

Local Open Scope string_scope.
Local Open Scope Z_scope.

(** ** Strings: the [str] methods the loader uses *)

Module Str.

(** [c.lower()] on one character. Below 256 the upper-case letters are
    A-Z (65-90) and the Latin-1 capitals 192-222 without the
    multiplication sign 215; each one's lower-case form is 32 above. *)
Definition lower_char (c : ascii) : ascii :=
  let n := nat_of_ascii c in
  if ((65 <=? n) && (n <=? 90))%nat
     || ((192 <=? n) && (n <=? 222) && negb (n =? 215))%nat
  then ascii_of_nat (n + 32)
  else c.

(** [s.lower()] *)
Fixpoint lower (s : string) : string :=
  match s with
  | EmptyString => EmptyString
  | String c s' => String (lower_char c) (lower s')
  end.

(** [s.endswith(suffix)]: some tail of [s] is [suffix]. *)
Fixpoint endswith (s suffix : string) : bool :=
  if String.eqb s suffix then true
  else match s with
       | EmptyString => false
       | String _ s' => endswith s' suffix
       end.

(** [s.split(sep)] for a separator of one character: the segments
    between the occurrences of [sep], the empty ones included. *)
Fixpoint split (sep : ascii) (s : string) : list string :=
  match s with
  | EmptyString => [EmptyString]
  | String c s' =>
      if Ascii.eqb c sep then EmptyString :: split sep s'
      else match split sep s' with
           | [] => [String c EmptyString]
           | seg :: segs => String c seg :: segs
           end
  end.

(** [sep.join(segments)] *)
Fixpoint join (sep : string) (segments : list string) : string :=
  match segments with
  | [] => EmptyString
  | [seg] => seg
  | seg :: segs => seg ++ sep ++ join sep segs
  end.

(** [segments[:-1]] *)
Definition drop_last (segments : list string) : list string :=
  removelast segments.

(** [a or b] on strings: the empty string is false-y. *)
Definition or_else (a : option string) (b : string) : string :=
  match a with
  | None => b
  | Some EmptyString => b
  | Some s => s
  end.

End Str.

(** ** Values, exceptions, calls and events *)

(** The Python objects the loader passes on. [VObj] is an opaque handle of
    the external runtime (a model, a tokenizer, a configuration, a
    pipeline); [VFloat] holds the decimal literal as written. *)
Inductive value : Type :=
| VNone
| VBool (b : bool)
| VInt (n : Z)
| VFloat (q : Q)
| VStr (s : string)
| VTorchFloat16
| VObj (handle : nat)
| VTuple (items : list value).

(** The exception classes the loader names; [OtherException] is any class
    that is none of them nor a subclass of one. *)
Inductive exn_class : Type :=
| OutOfMemoryError
| NotImplementedError
| AttributeError
| OtherException (name : string).

Record exn : Type := mkExn { exn_cls : exn_class; exn_msg : string }.

Definition is_OutOfMemoryError (e : exn) : bool :=
  match exn_cls e with OutOfMemoryError => true | _ => false end.

(** The external entry points the loader calls. *)
Inductive callee : Type :=
| AutoConfig_from_pretrained
| AutoTokenizer_from_pretrained
| AutoModelForCausalLM_from_pretrained
| tie_weights
| LlamaTokenizer_from_pretrained
| LlamaForCausalLM_from_pretrained
| AutoGPTQForCausalLM_from_quantized
| GenerationConfig_from_pretrained
| pipeline
| HuggingFacePipeline.

Record call : Type := mkCall {
  call_fn : callee;
  call_args : list value;
  call_kwargs : gmap string value
}.

Inductive outcome (A : Type) : Type :=
| Returned (a : A)
| Raised (e : exn)
| Exited (code : Z).
Arguments Returned {A} a.
Arguments Raised {A} e.
Arguments Exited {A} code.

Inductive level : Type := INFO | WARNING | ERROR.

Inductive event : Type :=
| EvLog (lvl : level) (msg : string)
| EvCall (c : call) (r : outcome value).

(** The external runtime. *)
Class Runtime : Type := {
  World : Type;
  extern : call -> World -> outcome value * World
}.

(** The constants of the package [localGPT] that the loader imports; the
    package's [__init__] is not part of the sources at hand, so they are
    parameters. *)
Class Defaults : Type := {
  DEFAULT_DEVICE_TYPE : string;
  DEFAULT_MODEL_TYPE : string;
  DEFAULT_MODEL_REPOSITORY : string;
  DEFAULT_MODEL_SAFETENSORS : string
}.

(** ** The object and the execution monad *)

(** The attributes [__init__] stores on [self]. *)
#[projections(primitive)]
Record ModelLoader : Type := mkModelLoader {
  device_type : string;
  model_type : string;
  model_repository : string;
  model_safetensors : string;
  use_triton : bool
}.

Definition set_device_type (v : string) (o : ModelLoader) : ModelLoader :=
  mkModelLoader v (model_type o) (model_repository o) (model_safetensors o)
                (use_triton o).
Definition set_model_type (v : string) (o : ModelLoader) : ModelLoader :=
  mkModelLoader (device_type o) v (model_repository o) (model_safetensors o)
                (use_triton o).
Definition set_model_repository (v : string) (o : ModelLoader) : ModelLoader :=
  mkModelLoader (device_type o) (model_type o) v (model_safetensors o)
                (use_triton o).
Definition set_model_safetensors (v : string) (o : ModelLoader) : ModelLoader :=
  mkModelLoader (device_type o) (model_type o) (model_repository o) v
                (use_triton o).
Definition set_use_triton (v : bool) (o : ModelLoader) : ModelLoader :=
  mkModelLoader (device_type o) (model_type o) (model_repository o)
                (model_safetensors o) v.

Section Exec.
Context `{RT : Runtime}.

#[projections(primitive)]
Record State : Type := mkState { self : ModelLoader; world : World }.

(** One run: how it ended, the state it left, the events it emitted. *)
#[projections(primitive)]
Record Run (A : Type) : Type := mkRun {
  out : outcome A;
  final : State;
  emitted : list event
}.
Arguments mkRun {A} out final emitted.
Arguments out {A} r.
Arguments final {A} r.
Arguments emitted {A} r.

Definition exec (A : Type) : Type := State -> Run A.

Definition ret {A} (a : A) : exec A :=
  fun s => mkRun (Returned a) s [].

(** The events [evs] were emitted before the run [r]. *)
Definition prepend {A} (evs : list event) (r : Run A) : Run A :=
  mkRun (out r) (final r) (evs ++ emitted r).

Definition bind {A B} (m : exec A) (k : A -> exec B) : exec B :=
  fun s =>
    let r := m s in
    match out r with
    | Returned a => prepend (emitted r) (k a (final r))
    | Raised e => mkRun (Raised e) (final r) (emitted r)
    | Exited n => mkRun (Exited n) (final r) (emitted r)
    end.

(** [raise E(msg)] *)
Definition raise {A} (e : exn) : exec A :=
  fun s => mkRun (Raised e) s [].

(** [sys.exit(code)] *)
Definition sys_exit {A} (code : Z) : exec A :=
  fun s => mkRun (Exited code) s [].

(** [try: body / except <classes matched by handler> as e: handler e] *)
Definition try_except {A} (body : exec A) (handler : exn -> option (exec A))
  : exec A :=
  fun s =>
    let r := body s in
    match out r with
    | Raised e =>
        match handler e with
        | Some h => prepend (emitted r) (h (final r))
        | None => r
        end
    | _ => r
    end.

(** Reading [self] and assigning one of its attributes. *)
Definition get_self : exec ModelLoader :=
  fun s => mkRun (Returned (self s)) s [].

Definition assign (upd : ModelLoader -> ModelLoader) : exec unit :=
  fun s => mkRun (Returned tt) (mkState (upd (self s)) (world s)) [].

(** [logging.info], [logging.warning], [logging.error] *)
Definition logging (lvl : level) (msg : string) : exec unit :=
  fun s => mkRun (Returned tt) s [EvLog lvl msg].

(** A call into the external runtime. *)
Definition external (c : call) : exec value :=
  fun s =>
    let '(r, w) := extern c (world s) in
    mkRun r (mkState (self s) w) [EvCall c r].

End Exec.

Arguments mkRun {RT A} out final emitted.
Arguments out {RT A} r.
Arguments final {RT A} r.
Arguments emitted {RT A} r.

(** The monad's operations under stdpp's notations [x ← m; k] and
    [m ;; k]. *)
#[global] Instance exec_ret `{RT : Runtime} : MRet exec := @ret RT.
#[global] Instance exec_bind `{RT : Runtime} : MBind exec :=
  fun A B k m => bind m k.

(** ** The methods of [ModelLoader] *)

(** [{k1: v1, ..., kn: vn}]: the items are stored from left to right. *)
Definition dict_literal (items : list (string * value)) : gmap string value :=
  foldl (fun d kv => <[kv.1 := kv.2]> d) ∅ items.

(** [isinstance(v, tuple)] *)
Definition isinstance_tuple (v : value) : bool :=
  match v with VTuple _ => true | _ => false end.

(** [b or False] for [b : bool | None] *)
Definition or_False (b : option bool) : bool :=
  match b with Some true => true | _ => false end.

(** The options of the full-model strategy: the [kwargs] dictionary as it
    stands when [AutoModelForCausalLM.from_pretrained] is called. *)
Definition huggingface_kwargs (device_type : string) : gmap string value :=
  let kwargs := dict_literal [("low_cpu_mem_usage", VBool true);
                              ("resume_download", VBool true);
                              ("trust_remote_code", VBool false)] in
  if negb (String.eqb device_type "cpu") then
    let kwargs := <["device_map" := VStr device_type]> kwargs in
    <["torch_dtype" := VTorchFloat16]> kwargs
  else kwargs.

(** The rewriting of [model_safetensors] at the head of the quantized
    strategy. *)
Definition strip_safetensors (model_safetensors : string) : string :=
  if Str.endswith model_safetensors ".safetensors" then
    let split_string := Str.split "." model_safetensors in
    Str.join "." (Str.drop_last split_string)
  else model_safetensors.

(** The options of the quantized strategy: the [kwargs] dictionary as it
    stands when [AutoGPTQForCausalLM.from_quantized] is called. *)
Definition gptq_kwargs (device_type model_safetensors : string)
    (use_triton : bool) : gmap string value :=
  let kwargs := dict_literal [("low_cpu_mem_usage", VBool true);
                              ("resume_download", VBool true);
                              ("trust_remote_code", VBool false);
                              ("use_safetensors", VBool true);
                              ("device_map", VStr "auto");
                              ("model_safetensors", VStr model_safetensors)] in
  if negb (String.eqb device_type "cpu") then
    let kwargs := <["use_cuda_fp16" := VBool true]> kwargs in
    let kwargs := <["use_triton" := VBool use_triton]> kwargs in
    <["device" := VStr (device_type ++ ":0")]> kwargs
  else kwargs.

(** The keyword arguments of [pipeline(...)] in [create_pipeline]; 0.95
    and 1.15 are the literals of the source. *)
Definition pipeline_kwargs (model tokenizer generation_config : value)
  : gmap string value :=
  dict_literal [("model", model);
                ("tokenizer", tokenizer);
                ("max_length", VInt 512);
                ("temperature", VInt 0);
                ("top_p", VFloat (95 # 100));
                ("repetition_penalty", VFloat (115 # 100));
                ("generation_config", generation_config)].

Definition ggml_message : string :=
  "GGML support is in research and development".

Definition unsupported_message : string :=
  "Unsupported model type given. "
  ++ "Expected one of: "
  ++ "huggingface, "
  ++ "huggingface-llama, "
  ++ "ggml, "
  ++ "gptq".

Section Methods.
Context `{RT : Runtime}.

(** [self.<attribute>] *)
Definition attr {A} (field : ModelLoader -> A) : exec A :=
  this ← get_self; mret (field this).

Definition __init__ `{DF : Defaults}
    (device_type' model_type' model_repository' model_safetensors'
       : option string)
    (use_triton' : option bool) : exec unit :=
  assign (set_device_type
            (Str.lower (Str.or_else device_type' DEFAULT_DEVICE_TYPE)));;
  assign (set_model_type
            (Str.lower (Str.or_else model_type' DEFAULT_MODEL_TYPE)));;
  assign (set_model_repository
            (Str.or_else model_repository' DEFAULT_MODEL_REPOSITORY));;
  assign (set_model_safetensors
            (Str.or_else model_safetensors' DEFAULT_MODEL_SAFETENSORS));;
  assign (set_use_triton (or_False use_triton')).

Definition load_huggingface_model : exec (value * value) :=
  logging INFO "Using AutoModelForCausalLM for full models";;
  repo ← attr model_repository;
  config ← external (mkCall AutoConfig_from_pretrained [VStr repo] ∅);
  repo ← attr model_repository;
  logging INFO ("Configuration loaded for " ++ repo);;
  repo ← attr model_repository;
  tokenizer ← external (mkCall AutoTokenizer_from_pretrained [VStr repo] ∅);
  repo ← attr model_repository;
  logging INFO ("Tokenizer loaded for " ++ repo);;
  dev ← attr device_type;
  let kwargs := huggingface_kwargs dev in
  model ← try_except
    (repo ← attr model_repository;
     external (mkCall AutoModelForCausalLM_from_pretrained [VStr repo]
                      (<["config" := config]> kwargs)))
    (fun e =>
       if is_OutOfMemoryError e then
         Some (logging ERROR
                 "Encountered CUDA out of memory error while loading the model.";;
               logging ERROR (exn_msg e);;
               sys_exit 1)
       else None);
  repo ← attr model_repository;
  logging INFO ("Model loaded for " ++ repo);;
  (if negb (isinstance_tuple model) then
     external (mkCall tie_weights [model] ∅);;
     logging WARNING
       "Model Weights Tied: Effectiveness depends on the specific type of model."
   else mret tt);;
  mret (model, tokenizer).

Definition load_huggingface_llama_model : exec (value * value) :=
  logging INFO "Using LlamaTokenizer";;
  repo ← attr model_repository;
  tokenizer ← external (mkCall LlamaTokenizer_from_pretrained [VStr repo] ∅);
  repo ← attr model_repository;
  logging INFO ("Tokenizer loaded for " ++ repo);;
  repo ← attr model_repository;
  model ← external (mkCall LlamaForCausalLM_from_pretrained [VStr repo] ∅);
  repo ← attr model_repository;
  logging INFO ("Model loaded for " ++ repo);;
  mret (model, tokenizer).

(** The body is [pass]: the method returns [None]. *)
Definition load_ggml_model : exec value :=
  mret VNone.

Definition load_gptq_model : exec (value * value) :=
  logging INFO "Using AutoGPTQForCausalLM for quantized models";;
  logging WARNING "GGML models may supersede GPTQ models in future releases";;
  name ← attr model_safetensors;
  (if Str.endswith name ".safetensors" then
     name ← attr model_safetensors;
     let split_string := Str.split "." name in
     assign (set_model_safetensors (Str.join "." (Str.drop_last split_string)));;
     name ← attr model_safetensors;
     logging INFO ("Stripped " ++ name ++ ". Moving on.")
   else mret tt);;
  repo ← attr model_repository;
  tokenizer ← external (mkCall AutoTokenizer_from_pretrained [VStr repo]
                               (dict_literal [("use_fast", VBool true)]));
  repo ← attr model_repository;
  logging INFO ("Tokenizer loaded for " ++ repo);;
  name ← attr model_safetensors;
  dev ← attr device_type;
  triton ← attr use_triton;
  let kwargs := gptq_kwargs dev name triton in
  repo ← attr model_repository;
  model ← external (mkCall AutoGPTQForCausalLM_from_quantized [VStr repo]
                           kwargs);
  repo ← attr model_repository;
  logging INFO ("Model loaded for " ++ repo);;
  mret (model, tokenizer).

(** A static method: it does not read [self]. *)
Definition create_pipeline (model tokenizer generation_config : value)
  : exec value :=
  pipe ← external (mkCall pipeline [VStr "text-generation"]
                          (pipeline_kwargs model tokenizer generation_config));
  external (mkCall HuggingFacePipeline [] (dict_literal [("pipeline", pipe)])).

(** The if/elif chain of [load_model]: the strategy that is run, or the
    exception that is raised. *)
Definition dispatch : exec (value * value) :=
  mt ← attr model_type;
  if String.eqb (Str.lower mt) "huggingface" then load_huggingface_model
  else
    mt ← attr model_type;
    if String.eqb (Str.lower mt) "huggingface-llama" then
      load_huggingface_llama_model
    else
      mt ← attr model_type;
      if String.eqb (Str.lower mt) "gptq" then load_gptq_model
      else
        mt ← attr model_type;
        if String.eqb (Str.lower mt) "ggml" then
          raise (mkExn NotImplementedError ggml_message)
        else
          raise (mkExn AttributeError unsupported_message).

Definition load_model : exec value :=
  '(model, tokenizer) ← dispatch;
  repo ← attr model_repository;
  generation_config ←
    external (mkCall GenerationConfig_from_pretrained [VStr repo] ∅);
  local_llm ← create_pipeline model tokenizer generation_config;
  logging INFO "Local LLM Loaded";;
  mret local_llm.

End Methods.

(** An optional string argument is absent when it is [None] or empty, and
    present with value [v] otherwise. *)
Definition absent (o : option string) : Prop :=
  o = None \/ o = Some EmptyString.

Definition present (o : option string) (v : string) : Prop :=
  o = Some v /\ v <> EmptyString.

(** The values the if/elif chain of [load_model] compares [model_type]
    with, in the order of the chain. *)
Definition recognized_model_types : list string :=
  ["huggingface"; "huggingface-llama"; "gptq"; "ggml"].

(** ** Two runtimes to run the loader on *)

Module Simulation.

(** Every call succeeds and returns a fresh handle; the world counts the
    calls. *)
Definition fresh_runtime : Runtime :=
  {| World := nat; extern := fun _ n => (Returned (VObj n), S n) |}.

Definition cuda_oom : exn :=
  mkExn OutOfMemoryError "CUDA out of memory.".

(** As [fresh_runtime], but the accelerator has no room for a model:
    [AutoModelForCausalLM.from_pretrained] raises [OutOfMemoryError]. *)
Definition oom_runtime : Runtime :=
  {| World := nat;
     extern := fun c n =>
       match call_fn c with
       | AutoModelForCausalLM_from_pretrained => (Raised cuda_oom, n)
       | _ => (Returned (VObj n), S n)
       end |}.

(** One possible setting of the package constants. *)
Definition lowercase_defaults : Defaults :=
  {| DEFAULT_DEVICE_TYPE := "cuda";
     DEFAULT_MODEL_TYPE := "huggingface";
     DEFAULT_MODEL_REPOSITORY := "organisation/model";
     DEFAULT_MODEL_SAFETENSORS := "model.safetensors" |}.

Definition loader (device model repository safetensors : string)
    (triton : bool) : ModelLoader :=
  mkModelLoader device model repository safetensors triton.

(** A loader on [fresh_runtime] before any call. *)
Definition fresh (o : ModelLoader) : @State fresh_runtime :=
  @mkState fresh_runtime o 0%nat.

(** A loader on [oom_runtime] before any call. *)
Definition starved (o : ModelLoader) : @State oom_runtime :=
  @mkState oom_runtime o 0%nat.

End Simulation.

(** ** Runs that end early *)

(** [evs] ends with the event [ev]. *)
Definition ends_with (evs : list event) (ev : event) : Prop :=
  exists before, evs = (before ++ [ev])%list.

(** The entry points that load an artefact of a repository; the others
    work on objects already loaded. *)
Definition loads_from_repository (fn : callee) : bool :=
  match fn with
  | tie_weights | pipeline | HuggingFacePipeline => false
  | _ => true
  end.

#[global] Instance callee_eq_dec : EqDecision callee.
Proof. solve_decision. Defined.

Module Faults.

Definition network_down : exn :=
  mkExn (OtherException "OSError") "Connection error.".

(** As [Simulation.fresh_runtime], but every call of [fn] raises [e]. *)
Definition raising_runtime (fn : callee) (e : exn) : Runtime :=
  {| World := nat;
     extern := fun c n =>
       if bool_decide (call_fn c = fn) then (Raised e, n)
       else (Returned (VObj n), S n) |}.

(** As [Simulation.fresh_runtime], but the generic model loader returns
    a pair, as it does when asked for its loading information. *)
Definition tuple_runtime : Runtime :=
  {| World := nat;
     extern := fun c n =>
       match call_fn c with
       | AutoModelForCausalLM_from_pretrained =>
           (Returned (VTuple [VObj n; VNone]), S n)
       | _ => (Returned (VObj n), S n)
       end |}.

(** A loader on [raising_runtime fn e] before any call. *)
Definition failing (fn : callee) (e : exn) (o : ModelLoader)
  : @State (raising_runtime fn e) :=
  @mkState (raising_runtime fn e) o 0%nat.

(** A loader on [tuple_runtime] before any call. *)
Definition paired (o : ModelLoader) : @State tuple_runtime :=
  @mkState tuple_runtime o 0%nat.

End Faults.

(** ** Facts about the string operations *)

Module StrFacts.
Import Str.

#[local] Arguments String.append !_ _ / : simpl nomatch.

Lemma lower_char_idem (c : ascii) : lower_char (lower_char c) = lower_char c.
Proof. destruct c as [[] [] [] [] [] [] [] []]; reflexivity. Qed.

Lemma lower_idem (s : string) : lower (lower s) = lower s.
Proof.
  induction s as [|c s IH]; simpl; [reflexivity|].
  now rewrite lower_char_idem, IH.
Qed.

Lemma lower_nonempty (s : string) : lower s <> EmptyString -> s <> EmptyString.
Proof. intros H ->. now apply H. Qed.

Lemma endswith_spec (s suffix : string) :
  endswith s suffix = true <-> exists p, s = p ++ suffix.
Proof.
  induction s as [|c s IH]; cbn [endswith].
  - destruct (String.eqb_spec EmptyString suffix) as [<-|Hne]; split.
    + intros _. now exists EmptyString.
    + reflexivity.
    + intros [=].
    + intros [[|c p] Hp]; simpl in Hp; [congruence | discriminate Hp].
  - destruct (String.eqb_spec (String c s) suffix) as [<-|Hne]; split.
    + intros _. now exists EmptyString.
    + reflexivity.
    + intros [p ->]%IH. now exists (String c p).
    + intros [[|c' p] Hp]; simpl in Hp; [congruence|].
      injection Hp as Hc Hs. apply IH. now exists p.
Qed.

Lemma length_append (a b : string) :
  String.length (a ++ b) = (String.length a + String.length b)%nat.
Proof. induction a as [|c a IH]; simpl; [reflexivity | now rewrite IH]. Qed.

(** A string shorter than [suffix] does not end with it. *)
Lemma shorter_no_suffix (s suffix : string) :
  (String.length s < String.length suffix)%nat ->
  ~ exists p, s = p ++ suffix.
Proof.
  intros Hlt [p ->]. rewrite length_append in Hlt. lia.
Qed.

Lemma split_nonempty (sep : ascii) (s : string) : split sep s <> [].
Proof.
  destruct s as [|c s]; simpl; [discriminate|].
  destruct (Ascii.eqb c sep); [discriminate|].
  destruct (split sep s); discriminate.
Qed.

(** Splitting and joining on the same separator gives the string back. *)
Lemma join_split (sep : ascii) (s : string) :
  join (String sep EmptyString) (split sep s) = s.
Proof.
  induction s as [|c s IH]; simpl; [reflexivity|].
  pose proof (split_nonempty sep s) as Hne.
  destruct (Ascii.eqb_spec c sep) as [->|Hc].
  - destruct (split sep s) as [|seg segs]; [congruence|].
    simpl in *. now rewrite IH.
  - destruct (split sep s) as [|seg segs]; [congruence|].
    destruct segs as [|seg' segs]; simpl in *; now rewrite <- IH.
Qed.

(** A last segment without separator is split off as it is. *)
Lemma split_app_last (sep : ascii) (p q : string) :
  split sep q = [q] ->
  split sep (p ++ String sep q) = (split sep p ++ [q])%list.
Proof.
  intros Hq. induction p as [|c p IH]; simpl.
  - rewrite Ascii.eqb_refl. now rewrite Hq.
  - rewrite IH. destruct (Ascii.eqb c sep); [reflexivity|].
    pose proof (split_nonempty sep p) as Hne.
    destruct (split sep p) as [|seg segs]; [congruence | reflexivity].
Qed.

Lemma drop_last_snoc (segs : list string) (q : string) :
  drop_last (segs ++ [q])%list = segs.
Proof. apply removelast_last. Qed.

Lemma or_else_absent (d : string) :
  or_else None d = d /\ or_else (Some EmptyString) d = d.
Proof. split; reflexivity. Qed.

Lemma or_else_present (v d : string) :
  v <> EmptyString -> or_else (Some v) d = v.
Proof. destruct v; [congruence | reflexivity]. Qed.

End StrFacts.

(** The rewriting of the quantized strategy strips one trailing
    [.safetensors] and nothing else. *)
Lemma strip_safetensors_suffix (p : string) :
  strip_safetensors (p ++ ".safetensors") = p.
Proof.
  unfold strip_safetensors.
  assert (Str.endswith (p ++ ".safetensors") ".safetensors" = true) as ->
    by (apply StrFacts.endswith_spec; now exists p).
  change ".safetensors" with (String "." "safetensors") at 1.
  rewrite StrFacts.split_app_last by reflexivity.
  rewrite StrFacts.drop_last_snoc.
  apply StrFacts.join_split.
Qed.

Lemma strip_safetensors_other (s : string) :
  (~ exists p, s = p ++ ".safetensors") -> strip_safetensors s = s.
Proof.
  intros Hno. unfold strip_safetensors.
  destruct (Str.endswith s ".safetensors") eqn:E; [|reflexivity].
  apply StrFacts.endswith_spec in E. contradiction.
Qed.

Example split_segments :
  Str.split "." "a.b.safetensors" = ["a"; "b"; "safetensors"].
Proof. reflexivity. Qed.

Example strip_full_file_name :
  strip_safetensors "model.no-act.order.safetensors" = "model.no-act.order".
Proof. reflexivity. Qed.

Example strip_inner_suffix_kept :
  strip_safetensors "weights.safetensors.bak" = "weights.safetensors.bak".
Proof. reflexivity. Qed.

Example lower_mixed_case : Str.lower "HuggingFace-LLaMA" = "huggingface-llama".
Proof. reflexivity. Qed.

(** ** Running the monad *)

Section ExecFacts.
Context `{RT : Runtime}.

Lemma ret_run {A} (a : A) (s : State) :
  (mret a : exec A) s = mkRun (Returned a) s [].
Proof. reflexivity. Qed.

Lemma bind_ret_l {A B} (a : A) (k : A -> exec B) (s : State) :
  (x ← mret a; k x) s = k a s.
Proof. reflexivity. Qed.

Lemma bind_assoc {A B C} (m : exec A) (f : A -> exec B) (g : B -> exec C)
    (s : State) :
  (y ← (x ← m; f x); g y) s = (x ← m; y ← f x; g y) s.
Proof.
  unfold mbind, exec_bind, bind, prepend.
  destruct (out (m s)) as [a|e|n]; cbn; [|reflexivity..].
  destruct (out (f a (final (m s)))) as [b|e|n]; cbn; [|reflexivity..].
  now rewrite app_assoc.
Qed.

Lemma bind_attr {A B} (field : ModelLoader -> A) (k : A -> exec B) (s : State) :
  (x ← attr field; k x) s = k (field (self s)) s.
Proof. reflexivity. Qed.

Lemma bind_logging {A} (lvl : level) (msg : string) (k : exec A) (s : State) :
  (logging lvl msg;; k) s = prepend [EvLog lvl msg] (k s).
Proof. reflexivity. Qed.

Lemma bind_assign {A} (upd : ModelLoader -> ModelLoader) (k : exec A) (s : State) :
  (assign upd;; k) s = k (mkState (upd (self s)) (world s)).
Proof. reflexivity. Qed.

Lemma bind_raise {A B} (e : exn) (k : A -> exec B) (s : State) :
  (x ← raise e; k x) s = mkRun (Raised e) s [].
Proof. reflexivity. Qed.

Lemma bind_sys_exit {A B} (n : Z) (k : A -> exec B) (s : State) :
  (x ← sys_exit n; k x) s = mkRun (Exited n) s [].
Proof. reflexivity. Qed.

Lemma external_run (c : call) (s : State) :
  external c s
  = mkRun (extern c (world s)).1 (mkState (self s) (extern c (world s)).2)
          [EvCall c (extern c (world s)).1].
Proof. unfold external. now destruct (extern c (world s)). Qed.

Lemma bind_external {A} (c : call) (k : value -> exec A) (s : State) :
  (x ← external c; k x) s
  = match extern c (world s) with
    | (Returned v, w) =>
        prepend [EvCall c (Returned v)] (k v (mkState (self s) w))
    | (Raised e, w) =>
        mkRun (Raised e) (mkState (self s) w) [EvCall c (Raised e)]
    | (Exited n, w) =>
        mkRun (Exited n) (mkState (self s) w) [EvCall c (Exited n)]
    end.
Proof.
  unfold mbind, exec_bind, bind. rewrite external_run.
  destruct (extern c (world s)) as [[v|e|n] w]; reflexivity.
Qed.

Lemma bind_try_attr {A B C} (field : ModelLoader -> A) (m : A -> exec B)
    (h : exn -> option (exec B)) (k : B -> exec C) (s : State) :
  (y ← try_except (x ← attr field; m x) h; k y) s
  = (y ← try_except (m (field (self s))) h; k y) s.
Proof. reflexivity. Qed.

(** A guarded external call, followed by [k]. *)
Lemma bind_try_external {A} (c : call) (h : exn -> option (exec value))
    (k : value -> exec A) (s : State) :
  (x ← try_except (external c) h; k x) s
  = match extern c (world s) with
    | (Returned v, w) =>
        prepend [EvCall c (Returned v)] (k v (mkState (self s) w))
    | (Raised e, w) =>
        match h e with
        | Some handler =>
            prepend [EvCall c (Raised e)]
                    ((x ← handler; k x) (mkState (self s) w))
        | None => mkRun (Raised e) (mkState (self s) w) [EvCall c (Raised e)]
        end
    | (Exited n, w) =>
        mkRun (Exited n) (mkState (self s) w) [EvCall c (Exited n)]
    end.
Proof.
  unfold mbind, exec_bind, bind, try_except. rewrite external_run.
  destruct (extern c (world s)) as [[v|e|n] w]; cbn; try reflexivity.
  destruct (h e) as [handler|]; [|reflexivity].
  unfold prepend. cbn.
  destruct (out (handler _)); reflexivity.
Qed.

(** Which branch of the chain is taken. *)
Lemma dispatch_chain (s : State) :
  dispatch s =
  let mt := Str.lower (model_type (self s)) in
  if String.eqb mt "huggingface" then load_huggingface_model s
  else if String.eqb mt "huggingface-llama" then load_huggingface_llama_model s
  else if String.eqb mt "gptq" then load_gptq_model s
  else if String.eqb mt "ggml" then
    mkRun (Raised (mkExn NotImplementedError ggml_message)) s []
  else mkRun (Raised (mkExn AttributeError unsupported_message)) s [].
Proof.
  unfold dispatch. rewrite bind_attr. cbv zeta.
  destruct (String.eqb _ "huggingface"); [reflexivity|]. rewrite bind_attr.
  destruct (String.eqb _ "huggingface-llama"); [reflexivity|]. rewrite bind_attr.
  destruct (String.eqb _ "gptq"); [reflexivity|]. rewrite bind_attr.
  destruct (String.eqb _ "ggml"); reflexivity.
Qed.

Lemma dispatch_huggingface (s : State) :
  Str.lower (model_type (self s)) = "huggingface" ->
  dispatch s = load_huggingface_model s.
Proof. intros H. rewrite dispatch_chain, H. reflexivity. Qed.

Lemma dispatch_huggingface_llama (s : State) :
  Str.lower (model_type (self s)) = "huggingface-llama" ->
  dispatch s = load_huggingface_llama_model s.
Proof. intros H. rewrite dispatch_chain, H. reflexivity. Qed.

Lemma dispatch_gptq (s : State) :
  Str.lower (model_type (self s)) = "gptq" ->
  dispatch s = load_gptq_model s.
Proof. intros H. rewrite dispatch_chain, H. reflexivity. Qed.

Lemma dispatch_ggml (s : State) :
  Str.lower (model_type (self s)) = "ggml" ->
  dispatch s = mkRun (Raised (mkExn NotImplementedError ggml_message)) s [].
Proof. intros H. rewrite dispatch_chain, H. reflexivity. Qed.

Lemma dispatch_unsupported (s : State) :
  Str.lower (model_type (self s)) ∉ recognized_model_types ->
  dispatch s = mkRun (Raised (mkExn AttributeError unsupported_message)) s [].
Proof.
  unfold recognized_model_types. rewrite !not_elem_of_cons.
  intros (H1 & H2 & H3 & H4 & _).
  apply String.eqb_neq in H1, H2, H3, H4.
  rewrite dispatch_chain. cbv zeta. now rewrite H1, H2, H3, H4.
Qed.

Lemma bind_run {A B} (m : exec A) (k : A -> exec B) (s : State) :
  (x ← m; k x) s
  = match out (m s) with
    | Returned a => prepend (emitted (m s)) (k a (final (m s)))
    | Raised e => mkRun (Raised e) (final (m s)) (emitted (m s))
    | Exited n => mkRun (Exited n) (final (m s)) (emitted (m s))
    end.
Proof. reflexivity. Qed.

Lemma load_model_dispatch_exited (s : State) (n : Z) :
  out (dispatch s) = Exited n ->
  load_model s = mkRun (Exited n) (final (dispatch s)) (emitted (dispatch s)).
Proof. intros H. unfold load_model. now rewrite bind_run, H. Qed.

(** A chain that returns has run one of the three strategies. *)
Lemma dispatch_returned (s : State) (p : value * value) :
  out (dispatch s) = Returned p ->
  (Str.lower (model_type (self s)) = "huggingface"
   /\ out (load_huggingface_model s) = Returned p)
  \/ (Str.lower (model_type (self s)) = "huggingface-llama"
      /\ out (load_huggingface_llama_model s) = Returned p)
  \/ (Str.lower (model_type (self s)) = "gptq"
      /\ out (load_gptq_model s) = Returned p).
Proof.
  rewrite dispatch_chain. cbv zeta.
  destruct (String.eqb_spec (Str.lower (model_type (self s))) "huggingface");
    [now left|].
  destruct (String.eqb_spec (Str.lower (model_type (self s)))
                            "huggingface-llama");
    [now right; left|].
  destruct (String.eqb_spec (Str.lower (model_type (self s))) "gptq");
    [now right; right|].
  destruct (String.eqb _ "ggml"); discriminate.
Qed.

(** A failing chain is a failing [load_model]: nothing follows it. *)
Lemma load_model_dispatch_raised (s s' : State) (e : exn) (evs : list event) :
  dispatch s = mkRun (Raised e) s' evs ->
  load_model s = mkRun (Raised e) s' evs.
Proof. intros H. unfold load_model, mbind, exec_bind, bind. now rewrite H. Qed.

End ExecFacts.

(** One step of a run, and a whole run down to the answers of the
    runtime. *)
Ltac exec_step :=
  first [ rewrite bind_assoc | rewrite bind_attr | rewrite bind_logging
        | rewrite bind_assign | rewrite bind_ret_l | rewrite bind_raise
        | rewrite bind_sys_exit | rewrite bind_external
        | rewrite bind_try_attr | rewrite bind_try_external
        | rewrite ret_run | rewrite external_run ].

Ltac exec_simpl :=
  cbn [self world final out emitted prepend negb fst snd
       device_type model_type model_repository model_safetensors use_triton
       set_model_safetensors call_fn call_args call_kwargs] in *.

Ltac exec_run :=
  repeat first
    [ exec_step
    | match goal with
      | |- context [extern ?c ?w0] =>
          let E := fresh "E" in
          destruct (extern c w0) as [[?v|?e|?n] ?w] eqn:E
      | |- context [if is_OutOfMemoryError ?e0 then _ else _] =>
          let E := fresh "E" in destruct (is_OutOfMemoryError e0) eqn:E
      | |- context [if negb (isinstance_tuple ?v0) then _ else _] =>
          let E := fresh "E" in destruct (isinstance_tuple v0) eqn:E
      end
    | progress exec_simpl ].



(** ** What a run leaves of [self] *)

Section Frame.
Context `{RT : Runtime}.

Lemma huggingface_final_self (s : State) :
  self (final (load_huggingface_model s)) = self s.
Proof. unfold load_huggingface_model. exec_run; reflexivity. Qed.

Lemma huggingface_llama_final_self (s : State) :
  self (final (load_huggingface_llama_model s)) = self s.
Proof. unfold load_huggingface_llama_model. exec_run; reflexivity. Qed.

Lemma gptq_final_self (s : State) :
  self (final (load_gptq_model s))
  = set_model_safetensors (strip_safetensors (model_safetensors (self s)))
                          (self s).
Proof.
  unfold load_gptq_model, strip_safetensors.
  do 3 exec_step.
  destruct (Str.endswith _ _) eqn:E; exec_run; reflexivity.
Qed.

Lemma create_pipeline_final_self (model tokenizer generation_config : value)
    (s : State) :
  self (final (create_pipeline model tokenizer generation_config s)) = self s.
Proof.
  unfold create_pipeline. exec_run; reflexivity.
Qed.

Lemma dispatch_final_self (s : State) :
  self (final (dispatch s)) = self s
  \/ (Str.lower (model_type (self s)) = "gptq"
      /\ self (final (dispatch s))
         = set_model_safetensors
             (strip_safetensors (model_safetensors (self s))) (self s)).
Proof.
  rewrite dispatch_chain. cbv zeta.
  destruct (String.eqb_spec (Str.lower (model_type (self s))) "huggingface");
    [left; apply huggingface_final_self|].
  destruct (String.eqb_spec (Str.lower (model_type (self s)))
                            "huggingface-llama");
    [left; apply huggingface_llama_final_self|].
  destruct (String.eqb_spec (Str.lower (model_type (self s))) "gptq");
    [right; split; [assumption | apply gptq_final_self]|].
  destruct (String.eqb _ "ggml"); left; reflexivity.
Qed.

(** What follows the chain in [load_model] leaves [self] as the chain
    left it. *)
Lemma load_model_final_self (s : State) :
  self (final (load_model s)) = self (final (dispatch s)).
Proof.
  unfold load_model. rewrite bind_run.
  destruct (out (dispatch s)) as [[model tokenizer]|e|n]; try reflexivity.
  rewrite bind_attr, bind_external.
  destruct (extern _ _) as [[generation_config|e|n] w]; try reflexivity.
  cbn [final prepend]. rewrite bind_run.
  match goal with
  | |- context [create_pipeline ?m ?t ?g ?st] =>
      pose proof (create_pipeline_final_self m t g st) as Hp;
      destruct (out (create_pipeline m t g st))
  end; exec_run; exact Hp.
Qed.

End Frame.

(** ** The option dictionaries *)

Section Options.

Lemma huggingface_kwargs_cpu :
  huggingface_kwargs "cpu" !! "device_map" = None
  /\ huggingface_kwargs "cpu" !! "torch_dtype" = None.
Proof. split; reflexivity. Qed.

Lemma huggingface_kwargs_device (dev : string) :
  dev <> "cpu" ->
  huggingface_kwargs dev !! "device_map" = Some (VStr dev)
  /\ huggingface_kwargs dev !! "torch_dtype" = Some VTorchFloat16.
Proof.
  intros Hdev%String.eqb_neq. unfold huggingface_kwargs.
  rewrite Hdev. cbn [negb]. split.
  - rewrite lookup_insert_ne by discriminate. apply lookup_insert_eq.
  - apply lookup_insert_eq.
Qed.

Lemma gptq_kwargs_cpu (name : string) (triton : bool) :
  gptq_kwargs "cpu" name triton !! "use_cuda_fp16" = None
  /\ gptq_kwargs "cpu" name triton !! "use_triton" = None
  /\ gptq_kwargs "cpu" name triton !! "device" = None.
Proof.
  unfold gptq_kwargs, dict_literal. cbn [String.eqb Ascii.eqb Bool.eqb negb foldl fst snd].
  repeat split; repeat (rewrite lookup_insert_ne by discriminate);
    apply lookup_empty.
Qed.

Lemma gptq_kwargs_device (dev name : string) (triton : bool) :
  dev <> "cpu" ->
  gptq_kwargs dev name triton !! "use_cuda_fp16" = Some (VBool true)
  /\ gptq_kwargs dev name triton !! "use_triton" = Some (VBool triton)
  /\ gptq_kwargs dev name triton !! "device" = Some (VStr (dev ++ ":0")).
Proof.
  intros Hdev%String.eqb_neq. unfold gptq_kwargs.
  rewrite Hdev. cbn [negb]. repeat split;
    repeat (rewrite lookup_insert_ne by discriminate); apply lookup_insert_eq.
Qed.

Lemma gptq_kwargs_model_safetensors (dev name : string) (triton : bool) :
  gptq_kwargs dev name triton !! "model_safetensors" = Some (VStr name).
Proof.
  unfold gptq_kwargs, dict_literal. cbn [foldl fst snd].
  destruct (negb _);
    repeat (rewrite lookup_insert_ne by discriminate); apply lookup_insert_eq.
Qed.

Lemma pipeline_kwargs_lookup (model tokenizer generation_config : value) :
  let kwargs := pipeline_kwargs model tokenizer generation_config in
  kwargs !! "model" = Some model
  /\ kwargs !! "tokenizer" = Some tokenizer
  /\ kwargs !! "generation_config" = Some generation_config
  /\ kwargs !! "max_length" = Some (VInt 512)
  /\ kwargs !! "temperature" = Some (VInt 0)
  /\ kwargs !! "top_p" = Some (VFloat (95 # 100))
  /\ kwargs !! "repetition_penalty" = Some (VFloat (115 # 100))
  /\ dom kwargs = list_to_set ["model"; "tokenizer"; "generation_config";
                               "max_length"; "temperature"; "top_p";
                               "repetition_penalty"].
Proof.
  cbv zeta. unfold pipeline_kwargs, dict_literal. cbn [foldl fst snd].
  repeat split;
    repeat (rewrite lookup_insert_ne by discriminate);
    apply lookup_insert_eq.
Qed.

End Options.

(** ** The external calls of a run *)

(** The cases of [In ev evs] for an explicit list [evs]. *)
Ltac event_cases H :=
  cbn [app In] in H;
  repeat match type of H with
         | _ \/ _ => destruct H as [H|H]
         | False => contradiction
         | EvLog _ _ = EvCall _ _ => discriminate H
         | EvCall _ _ = EvCall _ _ =>
             let Hc := fresh "Hc" in
             let Hr := fresh "Hr" in
             injection H as Hc Hr;
             first [ discriminate Hr
                   | try (injection Hr as Hr); subst ]
         end.

Section Events.
Context `{RT : Runtime}.

(** The one call of the generic model loader in the full-model
    strategy. *)
Lemma huggingface_model_call (s : State) (c : call) (r : outcome value) :
  In (EvCall c r) (emitted (load_huggingface_model s)) ->
  call_fn c = AutoModelForCausalLM_from_pretrained ->
  exists config,
    c = mkCall AutoModelForCausalLM_from_pretrained
               [VStr (model_repository (self s))]
               (<["config" := config]>
                  (huggingface_kwargs (device_type (self s)))).
Proof.
  unfold load_huggingface_model. exec_run; intros H Hfn; event_cases H;
    try discriminate Hfn; eauto.
Qed.

(** The one call of the quantized model loader in the quantized
    strategy. *)
Lemma gptq_model_call (s : State) (c : call) (r : outcome value) :
  In (EvCall c r) (emitted (load_gptq_model s)) ->
  call_fn c = AutoGPTQForCausalLM_from_quantized ->
  c = mkCall AutoGPTQForCausalLM_from_quantized
             [VStr (model_repository (self s))]
             (gptq_kwargs (device_type (self s))
                          (strip_safetensors (model_safetensors (self s)))
                          (use_triton (self s))).
Proof.
  unfold load_gptq_model, strip_safetensors. do 3 exec_step.
  destruct (Str.endswith _ _); exec_run; intros H Hfn; event_cases H;
    try discriminate Hfn; reflexivity.
Qed.

(** The full-model strategy when its model loader runs out of memory. *)
Lemma huggingface_oom (s : State) (c : call) (e : exn) :
  In (EvCall c (Raised e)) (emitted (load_huggingface_model s)) ->
  call_fn c = AutoModelForCausalLM_from_pretrained ->
  exn_cls e = OutOfMemoryError ->
  out (load_huggingface_model s) = Exited 1
  /\ exists evs,
      emitted (load_huggingface_model s)
      = (evs ++ [EvCall c (Raised e);
                 EvLog ERROR
                   "Encountered CUDA out of memory error while loading the model.";
                 EvLog ERROR (exn_msg e)])%list.
Proof.
  unfold load_huggingface_model. exec_run; intros H Hfn Hcls; event_cases H;
    try discriminate Hfn.
  - split; [reflexivity|]. cbn [app]. eexists [_; _; _; _; _]. reflexivity.
  - unfold is_OutOfMemoryError in *. rewrite Hcls in *. discriminate.
Qed.

End Events.

(** ** The properties of the loader *)

Section Claims.
Context `{RT : Runtime}.

(** C1. A [model_type] whose lower-case form is none of huggingface,
    huggingface-llama, gptq and ggml makes [load_model] raise
    [AttributeError], the failure for an unsupported configuration,
    with the state as it was and no event emitted: no strategy ran, no
    external call was made, nothing was logged. The message lists
    exactly the four recognized values. *)
Theorem load_model_unsupported_model_type (s : State) :
  ~ In (Str.lower (model_type (self s))) recognized_model_types ->
  load_model s
  = mkRun (Raised (mkExn AttributeError unsupported_message)) s []
  /\ exists names,
      unsupported_message
      = "Unsupported model type given. Expected one of: "
        ++ Str.join ", " names
      /\ names ≡ₚ recognized_model_types.
Proof.
  intros Hnot. split.
  - apply load_model_dispatch_raised, dispatch_unsupported.
    now rewrite list_elem_of_In.
  - exists ["huggingface"; "huggingface-llama"; "ggml"; "gptq"].
    split; [reflexivity|].
    unfold recognized_model_types. do 2 constructor. apply perm_swap.
Qed.

(** C2. When the model loader of the full-model strategy raises
    [OutOfMemoryError], the strategy logs two error records, the second
    one the text of the exception, and ends the process with status 1.
    A [load_model] that runs this strategy ends the same way: its
    outcome is the exit, never a raised exception. *)
Theorem huggingface_out_of_memory_exits (s : State) (c : call) (e : exn) :
  In (EvCall c (Raised e)) (emitted (load_huggingface_model s)) ->
  call_fn c = AutoModelForCausalLM_from_pretrained ->
  exn_cls e = OutOfMemoryError ->
  (out (load_huggingface_model s) = Exited 1 /\ 1 <> 0)
  /\ (exists evs,
        emitted (load_huggingface_model s)
        = (evs ++ [EvCall c (Raised e);
                   EvLog ERROR
                     "Encountered CUDA out of memory error while loading the model.";
                   EvLog ERROR (exn_msg e)])%list)
  /\ (Str.lower (model_type (self s)) = "huggingface" ->
      out (load_model s) = Exited 1
      /\ emitted (load_model s) = emitted (load_huggingface_model s)
      /\ forall e', out (load_model s) <> Raised e').
Proof.
  intros Hin Hfn Hcls.
  destruct (huggingface_oom s c e Hin Hfn Hcls) as [Hout Hevs].
  split; [split; [exact Hout | discriminate]|].
  split; [exact Hevs|].
  intros Hm. rewrite <- (dispatch_huggingface s Hm) in Hout |- *.
  rewrite (load_model_dispatch_exited s 1 Hout).
  repeat split. discriminate.
Qed.

(** C3. The quantized strategy leaves in [model_safetensors] the value
    it found with one trailing [.safetensors] stripped, and the value
    itself when it does not end so; that is also the value handed to
    the quantized model loader. *)
Theorem gptq_strips_safetensors_suffix (s : State) :
  let name := model_safetensors (self s) in
  let after := model_safetensors (self (final (load_gptq_model s))) in
  after = strip_safetensors name
  /\ (forall p, name = p ++ ".safetensors" -> after = p)
  /\ ((~ exists p, name = p ++ ".safetensors") -> after = name)
  /\ (forall c r,
        In (EvCall c r) (emitted (load_gptq_model s)) ->
        call_fn c = AutoGPTQForCausalLM_from_quantized ->
        call_kwargs c !! "model_safetensors" = Some (VStr after)).
Proof.
  cbv zeta. rewrite gptq_final_self. cbn [model_safetensors set_model_safetensors].
  repeat split.
  - intros p ->. apply strip_safetensors_suffix.
  - apply strip_safetensors_other.
  - intros c r Hin Hfn. rewrite (gptq_model_call s c r Hin Hfn).
    apply gptq_kwargs_model_safetensors.
Qed.

(** C4. [__init__] returns without an event and without touching the
    world, whatever [self] held before. An absent argument stores the
    package default, a present one its own value; [device_type] and
    [model_type] are stored in lower case, so their defaults are stored
    as they are when they are in lower case already; [use_triton] is
    [True] only when [True] was given. *)
Theorem init_stores_normalized_fields `{DF : Defaults} (s0 : State)
    (device model repository safetensors : option string)
    (triton : option bool) :
  let run := __init__ device model repository safetensors triton s0 in
  let this := self (final run) in
  (out run = Returned tt /\ emitted run = [] /\ world (final run) = world s0)
  /\ (absent device -> device_type this = Str.lower DEFAULT_DEVICE_TYPE)
  /\ (absent model -> model_type this = Str.lower DEFAULT_MODEL_TYPE)
  /\ (absent repository -> model_repository this = DEFAULT_MODEL_REPOSITORY)
  /\ (absent safetensors ->
      model_safetensors this = DEFAULT_MODEL_SAFETENSORS)
  /\ (triton = None \/ triton = Some false -> use_triton this = false)
  /\ (forall v, present device v -> device_type this = Str.lower v)
  /\ (forall v, present model v -> model_type this = Str.lower v)
  /\ (forall v, present repository v -> model_repository this = v)
  /\ (forall v, present safetensors v -> model_safetensors this = v)
  /\ (triton = Some true -> use_triton this = true)
  /\ (Str.lower DEFAULT_DEVICE_TYPE = DEFAULT_DEVICE_TYPE ->
      absent device -> device_type this = DEFAULT_DEVICE_TYPE)
  /\ (Str.lower DEFAULT_MODEL_TYPE = DEFAULT_MODEL_TYPE ->
      absent model -> model_type this = DEFAULT_MODEL_TYPE).
Proof.
  cbv zeta. unfold __init__. rewrite !bind_assign.
  cbn [assign out final emitted self world
       device_type model_type model_repository model_safetensors use_triton
       set_use_triton set_model_safetensors set_model_repository
       set_model_type set_device_type].
  unfold absent, present.
  repeat split.
  all: try (intros [-> | ->]; reflexivity).
  all: try (intros v [-> Hv]; now rewrite StrFacts.or_else_present).
  - now intros ->.
  - intros Hd [-> | ->]; exact Hd.
  - intros Hm [-> | ->]; exact Hm.
Qed.

(** C5. A loader constructed with [model_type] ggml, in whatever letter
    case, makes [load_model] raise [NotImplementedError]; the state is
    as construction left it and no event is emitted, so no tokenizer or
    model was loaded. *)
Theorem load_model_ggml_not_implemented `{DF : Defaults} (s0 : State)
    (device : option string) (model : string)
    (repository safetensors : option string) (triton : option bool) :
  Str.lower model = "ggml" ->
  let s := final (__init__ device (Some model) repository safetensors
                           triton s0) in
  load_model s
  = mkRun (Raised (mkExn NotImplementedError ggml_message)) s [].
Proof.
  intros Hm s. apply load_model_dispatch_raised, dispatch_ggml.
  subst s. unfold __init__. rewrite !bind_assign.
  cbn [assign final self model_type set_use_triton set_model_safetensors
       set_model_repository set_model_type].
  rewrite StrFacts.or_else_present, StrFacts.lower_idem; [assumption|].
  apply StrFacts.lower_nonempty. rewrite Hm. discriminate.
Qed.

(** C6. In the full-model strategy the options of the call of
    [AutoModelForCausalLM.from_pretrained] hold neither [device_map] nor
    [torch_dtype] when [device_type] is cpu, and hold [device_map] set
    to [device_type] and [torch_dtype] set to half precision when it is
    anything else. *)
Theorem huggingface_device_options (s : State) (c : call)
    (r : outcome value) :
  In (EvCall c r) (emitted (load_huggingface_model s)) ->
  call_fn c = AutoModelForCausalLM_from_pretrained ->
  (device_type (self s) = "cpu" ->
   call_kwargs c !! "device_map" = None
   /\ call_kwargs c !! "torch_dtype" = None)
  /\ (device_type (self s) <> "cpu" ->
      call_kwargs c !! "device_map" = Some (VStr (device_type (self s)))
      /\ call_kwargs c !! "torch_dtype" = Some VTorchFloat16).
Proof.
  intros Hin Hfn.
  destruct (huggingface_model_call s c r Hin Hfn) as [config ->].
  cbn [call_kwargs]. rewrite !(lookup_insert_ne _ "config") by discriminate.
  split.
  - intros ->. apply huggingface_kwargs_cpu.
  - apply huggingface_kwargs_device.
Qed.

(** C7. In the quantized strategy the options of the call of
    [AutoGPTQForCausalLM.from_quantized] hold none of [use_cuda_fp16],
    [use_triton] and [device] when [device_type] is cpu; when it is
    anything else they hold [use_cuda_fp16] set to [True], [use_triton]
    set to the loader's flag and [device] set to [device_type] followed
    by [:0]. *)
Theorem gptq_device_options (s : State) (c : call) (r : outcome value) :
  In (EvCall c r) (emitted (load_gptq_model s)) ->
  call_fn c = AutoGPTQForCausalLM_from_quantized ->
  (device_type (self s) = "cpu" ->
   call_kwargs c !! "use_cuda_fp16" = None
   /\ call_kwargs c !! "use_triton" = None
   /\ call_kwargs c !! "device" = None)
  /\ (device_type (self s) <> "cpu" ->
      call_kwargs c !! "use_cuda_fp16" = Some (VBool true)
      /\ call_kwargs c !! "use_triton" = Some (VBool (use_triton (self s)))
      /\ call_kwargs c !! "device"
         = Some (VStr (device_type (self s) ++ ":0"))).
Proof.
  intros Hin Hfn. rewrite (gptq_model_call s c r Hin Hfn).
  cbn [call_kwargs]. split.
  - intros ->. apply gptq_kwargs_cpu.
  - apply gptq_kwargs_device.
Qed.

(** C8. Whenever [load_model] returns, the chain returned a model and a
    tokenizer from one of the three strategies; what follows it is, in
    this order, the fetch of the generation configuration of
    [model_repository], the call of [pipeline] for text generation
    with that model, tokenizer and configuration and with max_length
    512, temperature 0, top_p 0.95 and repetition_penalty 1.15 and no
    other option, and the wrapping in [HuggingFacePipeline], whose
    result is returned. *)
Theorem load_model_pipeline_assembly (s : State) (local_llm : value) :
  out (load_model s) = Returned local_llm ->
  exists model tokenizer generation_config pipe,
    out (dispatch s) = Returned (model, tokenizer)
    /\ ((Str.lower (model_type (self s)) = "huggingface"
         /\ out (load_huggingface_model s) = Returned (model, tokenizer))
        \/ (Str.lower (model_type (self s)) = "huggingface-llama"
            /\ out (load_huggingface_llama_model s)
               = Returned (model, tokenizer))
        \/ (Str.lower (model_type (self s)) = "gptq"
            /\ out (load_gptq_model s) = Returned (model, tokenizer)))
    /\ emitted (load_model s)
       = (emitted (dispatch s)
          ++ [EvCall (mkCall GenerationConfig_from_pretrained
                             [VStr (model_repository (self s))] ∅)
                     (Returned generation_config);
              EvCall (mkCall pipeline [VStr "text-generation"]
                             (pipeline_kwargs model tokenizer
                                              generation_config))
                     (Returned pipe);
              EvCall (mkCall HuggingFacePipeline []
                             (dict_literal [("pipeline", pipe)]))
                     (Returned local_llm);
              EvLog INFO "Local LLM Loaded"])%list
    /\ (let kwargs := pipeline_kwargs model tokenizer generation_config in
        kwargs !! "model" = Some model
        /\ kwargs !! "tokenizer" = Some tokenizer
        /\ kwargs !! "generation_config" = Some generation_config
        /\ kwargs !! "max_length" = Some (VInt 512)
        /\ kwargs !! "temperature" = Some (VInt 0)
        /\ kwargs !! "top_p" = Some (VFloat (95 # 100))
        /\ kwargs !! "repetition_penalty" = Some (VFloat (115 # 100))
        /\ dom kwargs
           = list_to_set ["model"; "tokenizer"; "generation_config";
                          "max_length"; "temperature"; "top_p";
                          "repetition_penalty"]).
Proof.
  assert (model_repository (self (final (dispatch s)))
          = model_repository (self s)) as Hrepo
    by (destruct (dispatch_final_self s) as [-> | [_ ->]]; reflexivity).
  unfold load_model, create_pipeline. rewrite bind_run.
  destruct (out (dispatch s)) as [[model tokenizer]|e|n] eqn:Hd;
    [|discriminate..].
  exec_run; intros Hret; try discriminate Hret.
  injection Hret as <-.
  eexists model, tokenizer, _, _.
  split; [reflexivity|].
  split; [now apply dispatch_returned|].
  split; [rewrite <- Hrepo; reflexivity|].
  apply pipeline_kwargs_lookup.
Qed.

(** C9. No method changes [device_type], [model_type],
    [model_repository] or [use_triton]; the full-model strategy, the
    Llama strategy, [load_ggml_model] and [create_pipeline] change no
    attribute at all; the quantized strategy changes [model_safetensors]
    alone, to its stripped form, and [load_model] changes it only
    through that strategy. This holds however the run ends. *)
Theorem config_fields_frame (s : State) :
  self (final (load_huggingface_model s)) = self s
  /\ self (final (load_huggingface_llama_model s)) = self s
  /\ self (final (load_ggml_model s)) = self s
  /\ (forall model tokenizer generation_config,
        self (final (create_pipeline model tokenizer generation_config s))
        = self s)
  /\ self (final (load_gptq_model s))
     = set_model_safetensors
         (strip_safetensors (model_safetensors (self s))) (self s)
  /\ (let after := self (final (load_gptq_model s)) in
      device_type after = device_type (self s)
      /\ model_type after = model_type (self s)
      /\ model_repository after = model_repository (self s)
      /\ use_triton after = use_triton (self s))
  /\ (let after := self (final (load_model s)) in
      device_type after = device_type (self s)
      /\ model_type after = model_type (self s)
      /\ model_repository after = model_repository (self s)
      /\ use_triton after = use_triton (self s)
      /\ (model_safetensors after = model_safetensors (self s)
          \/ (Str.lower (model_type (self s)) = "gptq"
              /\ model_safetensors after
                 = strip_safetensors (model_safetensors (self s))))).
Proof.
  split; [apply huggingface_final_self|].
  split; [apply huggingface_llama_final_self|].
  split; [reflexivity|].
  split; [intros; apply create_pipeline_final_self|].
  split; [apply gptq_final_self|].
  split.
  - cbv zeta. rewrite gptq_final_self. repeat split.
  - cbv zeta. rewrite load_model_final_self.
    destruct (dispatch_final_self s) as [-> | [Hm ->]].
    + repeat split. now left.
    + repeat split. right. now split.
Qed.

(** C10. Called directly, [load_ggml_model] returns [None]: it raises
    nothing, emits nothing and leaves the state as it was. The
    not-implemented failure of ggml is the [raise] in the chain of
    [load_model], which ends [load_model] there. *)
Theorem load_ggml_model_returns_none (s : State) :
  load_ggml_model s = mkRun (Returned VNone) s []
  /\ (forall e, out (load_ggml_model s) <> Raised e)
  /\ (Str.lower (model_type (self s)) = "ggml" ->
      dispatch s = raise (mkExn NotImplementedError ggml_message) s
      /\ load_model s
         = mkRun (Raised (mkExn NotImplementedError ggml_message)) s []).
Proof.
  split; [reflexivity|]. split; [discriminate|].
  intros Hm. split.
  - now apply dispatch_ggml.
  - now apply load_model_dispatch_raised, dispatch_ggml.
Qed.

End Claims.

(** ** The properties at work on the two runtimes *)

Module Witnesses.
Import Simulation.

Lemma load_model_unsupported_model_type_witness :
  let s := fresh (loader "cpu" "unknown-value" "repo" "weights" false) in
  load_model s
  = mkRun (Raised (mkExn AttributeError unsupported_message)) s [].
Proof.
  intros s.
  apply (load_model_unsupported_model_type (RT := fresh_runtime) s).
  vm_compute. intuition discriminate.
Defined.

Lemma huggingface_out_of_memory_exits_witness :
  let s := starved (loader "cuda" "huggingface" "repo" "weights" false) in
  out (load_huggingface_model s) = Exited 1
  /\ out (load_model s) = Exited 1.
Proof.
  intros s.
  assert (In (EvCall (mkCall AutoModelForCausalLM_from_pretrained
                             [VStr "repo"]
                             (<["config" := VObj 0]>
                                (huggingface_kwargs "cuda")))
                     (Raised cuda_oom))
             (emitted (load_huggingface_model s))) as Hin
    by (vm_compute; do 5 right; left; reflexivity).
  destruct (huggingface_out_of_memory_exits (RT := oom_runtime) s _ cuda_oom
              Hin eq_refl eq_refl)
    as ((Hexit & _) & _ & Hload).
  split; [exact Hexit|]. now apply Hload.
Defined.

Lemma gptq_strips_safetensors_suffix_witness :
  model_safetensors
    (self (final (load_gptq_model
                    (fresh (loader "cpu" "gptq" "repo" "weights.safetensors"
                                   false)))))
  = "weights"
  /\ model_safetensors
       (self (final (load_gptq_model
                       (fresh (loader "cpu" "gptq" "repo" "weights" false)))))
     = "weights".
Proof.
  split.
  - destruct (gptq_strips_safetensors_suffix (RT := fresh_runtime)
                (fresh (loader "cpu" "gptq" "repo" "weights.safetensors" false)))
      as (_ & Hstrip & _).
    exact (Hstrip "weights" eq_refl).
  - destruct (gptq_strips_safetensors_suffix (RT := fresh_runtime)
                (fresh (loader "cpu" "gptq" "repo" "weights" false)))
      as (_ & _ & Hkeep & _).
    apply Hkeep. apply StrFacts.shorter_no_suffix. simpl. lia.
Defined.

Lemma init_stores_normalized_fields_witness :
  let run := __init__ (DF := lowercase_defaults)
                      None (Some "GPTQ") (Some EmptyString) (Some "weights")
                      None
                      (fresh (loader "x" "x" "x" "x" true)) in
  device_type (self (final run)) = "cuda"
  /\ model_type (self (final run)) = "gptq"
  /\ model_repository (self (final run)) = "organisation/model"
  /\ model_safetensors (self (final run)) = "weights"
  /\ use_triton (self (final run)) = false.
Proof.
  intros run.
  destruct (init_stores_normalized_fields
              (RT := fresh_runtime) (DF := lowercase_defaults)
              (fresh (loader "x" "x" "x" "x" true))
              None (Some "GPTQ") (Some EmptyString) (Some "weights") None)
    as (_ & _ & _ & Hrepo & _ & Htriton & _ & Hmodel & _ & Hname & _
        & Hdevice & _).
  split; [|split; [|split; [|split]]].
  - apply Hdevice; [reflexivity | left; reflexivity].
  - apply (Hmodel "GPTQ"). split; [reflexivity | discriminate].
  - apply Hrepo. right; reflexivity.
  - apply (Hname "weights"). split; [reflexivity | discriminate].
  - apply Htriton. left; reflexivity.
Defined.

Lemma load_model_ggml_not_implemented_witness :
  let s := final (__init__ (DF := lowercase_defaults)
                           (Some "cpu") (Some "GgMl") None None None
                           (fresh (loader "x" "x" "x" "x" true))) in
  load_model s
  = mkRun (Raised (mkExn NotImplementedError ggml_message)) s [].
Proof.
  apply (load_model_ggml_not_implemented
           (RT := fresh_runtime) (DF := lowercase_defaults)
           (fresh (loader "x" "x" "x" "x" true))
           (Some "cpu") "GgMl" None None None).
  reflexivity.
Defined.

Lemma huggingface_device_options_witness :
  let c := mkCall AutoModelForCausalLM_from_pretrained [VStr "repo"]
                  (<["config" := VObj 0]> (huggingface_kwargs "cuda")) in
  call_kwargs c !! "device_map" = Some (VStr "cuda")
  /\ call_kwargs c !! "torch_dtype" = Some VTorchFloat16.
Proof.
  intros c.
  refine (proj2 (huggingface_device_options (RT := fresh_runtime)
                   (fresh (loader "cuda" "huggingface" "repo" "weights" false))
                   c (Returned (VObj 2)) _ _) _).
  - vm_compute. do 5 right. left. reflexivity.
  - reflexivity.
  - discriminate.
Defined.

Lemma gptq_device_options_witness :
  let c := mkCall AutoGPTQForCausalLM_from_quantized [VStr "repo"]
                  (gptq_kwargs "cuda" "weights" true) in
  call_kwargs c !! "use_cuda_fp16" = Some (VBool true)
  /\ call_kwargs c !! "use_triton" = Some (VBool true)
  /\ call_kwargs c !! "device" = Some (VStr "cuda:0").
Proof.
  intros c.
  refine (proj2 (gptq_device_options (RT := fresh_runtime)
                   (fresh (loader "cuda" "gptq" "repo" "weights.safetensors"
                                  true))
                   c (Returned (VObj 1)) _ _) _).
  - vm_compute. do 5 right. left. reflexivity.
  - reflexivity.
  - discriminate.
Defined.

Lemma load_model_pipeline_assembly_witness :
  exists model tokenizer generation_config pipe,
    In (EvCall (mkCall pipeline [VStr "text-generation"]
                       (pipeline_kwargs model tokenizer generation_config))
               (Returned pipe))
       (emitted (load_model
                   (fresh (loader "cpu" "huggingface" "repo" "weights"
                                  false)))).
Proof.
  destruct (load_model_pipeline_assembly (RT := fresh_runtime)
              (fresh (loader "cpu" "huggingface" "repo" "weights" false))
              (VObj 6) eq_refl)
    as (model & tokenizer & generation_config & pipe & _ & _ & Hevs & _).
  exists model, tokenizer, generation_config, pipe.
  rewrite Hevs. apply in_or_app. right. right. left. reflexivity.
Defined.

Lemma load_ggml_model_returns_none_witness :
  let s := fresh (loader "cpu" "GGML" "repo" "weights" false) in
  load_ggml_model s = mkRun (Returned VNone) s []
  /\ load_model s
     = mkRun (Raised (mkExn NotImplementedError ggml_message)) s [].
Proof.
  intros s.
  destruct (load_ggml_model_returns_none (RT := fresh_runtime) s)
    as (Hnone & _ & Hraise).
  split; [exact Hnone|]. now apply Hraise.
Defined.

End Witnesses.


(** ** Further properties of construction and of the rewriting *)

Module InitFacts.
Import Str.

Lemma or_else_lower_empty (a : option string) (d : string) :
  lower (or_else a d) = EmptyString -> lower d = EmptyString.
Proof.
  destruct a as [[|c v]|]; simpl; [tauto | discriminate | tauto].
Qed.

(** Storing a stored value again stores the same. *)
Lemma or_else_stored (a : option string) (d : string) :
  or_else (Some (or_else a d)) d = or_else a d.
Proof.
  destruct a as [[|c v]|]; simpl; try reflexivity; now destruct d.
Qed.

Lemma lower_or_else_stored (a : option string) (d : string) :
  lower (or_else (Some (lower (or_else a d))) d) = lower (or_else a d).
Proof.
  destruct (lower (or_else a d)) as [|c v] eqn:E.
  - simpl. now apply or_else_lower_empty in E.
  - rewrite <- E. simpl or_else. rewrite E. simpl or_else. rewrite <- E.
    apply StrFacts.lower_idem.
Qed.

Lemma lower_empty (s : string) : lower s = EmptyString -> s = EmptyString.
Proof. destruct s; [reflexivity | discriminate]. Qed.

(** What is stored for a lower-cased attribute depends on the lower-case
    form of the argument alone. *)
Lemma lower_or_else_case (v v' d : string) :
  lower v = lower v' ->
  lower (or_else (Some v) d) = lower (or_else (Some v') d).
Proof.
  intros Hl. destruct v as [|c v], v' as [|c' v']; simpl in *;
    try reflexivity; try discriminate. exact Hl.
Qed.

End InitFacts.

(** ** How the strategies end *)

(** An explicit list ends with its last element. *)
Ltac solve_ends_with :=
  unfold ends_with; cbn [app];
  first [ exists []; reflexivity
        | eexists [_]; reflexivity
        | eexists [_; _]; reflexivity
        | eexists [_; _; _]; reflexivity
        | eexists [_; _; _; _]; reflexivity
        | eexists [_; _; _; _; _]; reflexivity
        | eexists [_; _; _; _; _; _]; reflexivity
        | eexists [_; _; _; _; _; _; _]; reflexivity
        | eexists [_; _; _; _; _; _; _; _]; reflexivity
        | eexists [_; _; _; _; _; _; _; _; _]; reflexivity
        | eexists [_; _; _; _; _; _; _; _; _; _]; reflexivity ].

Section Endings.
Context `{RT : Runtime}.

Lemma ends_with_prepend (before evs : list event) (ev : event) :
  ends_with evs ev -> ends_with (before ++ evs)%list ev.
Proof.
  intros [pre ->]. exists (before ++ pre)%list. now rewrite app_assoc.
Qed.

(** A raised outcome of the full-model strategy is the exception of its
    last external call, and not an out-of-memory error of the model
    loader. *)
Lemma huggingface_raised (s : State) (e : exn) :
  out (load_huggingface_model s) = Raised e ->
  exists c,
    ends_with (emitted (load_huggingface_model s)) (EvCall c (Raised e))
    /\ (call_fn c = AutoModelForCausalLM_from_pretrained ->
        is_OutOfMemoryError e = false).
Proof.
  unfold load_huggingface_model. exec_run; intros H;
    try discriminate H; injection H as <-;
    (eexists; split; [solve_ends_with | cbn [call_fn]; try discriminate]).
  intros _. assumption.
Qed.

(** An exit of the full-model strategy is an exit of its last external
    call, or the exit with status 1 after an out-of-memory error of the
    model loader and the two error records. *)
Lemma huggingface_exited (s : State) (n : Z) :
  out (load_huggingface_model s) = Exited n ->
  (exists c, ends_with (emitted (load_huggingface_model s))
                       (EvCall c (Exited n)))
  \/ (n = 1
      /\ exists before c e,
          call_fn c = AutoModelForCausalLM_from_pretrained
          /\ exn_cls e = OutOfMemoryError
          /\ emitted (load_huggingface_model s)
             = (before
                ++ [EvCall c (Raised e);
                    EvLog ERROR
                      "Encountered CUDA out of memory error while loading the model.";
                    EvLog ERROR (exn_msg e)])%list).
Proof.
  unfold load_huggingface_model. exec_run; intros H;
    try discriminate H; injection H as <-;
    try (left; eexists; solve_ends_with).
  right. split; [reflexivity|].
  eexists [_; _; _; _; _], _, e.
  split; [|split]; [ | | cbn [app]; reflexivity ]; [reflexivity|].
  unfold is_OutOfMemoryError in *. now destruct (exn_cls e).
Qed.

(** In the full-model strategy an exception of any call but the model
    loader's is the outcome. *)
Lemma huggingface_unguarded (s : State) (c : call) (e : exn) :
  In (EvCall c (Raised e)) (emitted (load_huggingface_model s)) ->
  call_fn c <> AutoModelForCausalLM_from_pretrained ->
  out (load_huggingface_model s) = Raised e.
Proof.
  unfold load_huggingface_model. exec_run; intros H Hfn; event_cases H;
    try reflexivity; now contradiction Hfn.
Qed.

Lemma huggingface_llama_raised (s : State) (e : exn) :
  out (load_huggingface_llama_model s) = Raised e ->
  exists c, ends_with (emitted (load_huggingface_llama_model s))
                      (EvCall c (Raised e)).
Proof.
  unfold load_huggingface_llama_model. exec_run; intros H;
    try discriminate H; injection H as <-; eexists; solve_ends_with.
Qed.

Lemma huggingface_llama_exited (s : State) (n : Z) :
  out (load_huggingface_llama_model s) = Exited n ->
  exists c, ends_with (emitted (load_huggingface_llama_model s))
                      (EvCall c (Exited n)).
Proof.
  unfold load_huggingface_llama_model. exec_run; intros H;
    try discriminate H; injection H as <-; eexists; solve_ends_with.
Qed.

Lemma huggingface_llama_unguarded (s : State) (c : call) (e : exn) :
  In (EvCall c (Raised e)) (emitted (load_huggingface_llama_model s)) ->
  out (load_huggingface_llama_model s) = Raised e.
Proof.
  unfold load_huggingface_llama_model. exec_run; intros H; event_cases H;
    reflexivity.
Qed.

Lemma gptq_raised (s : State) (e : exn) :
  out (load_gptq_model s) = Raised e ->
  exists c, ends_with (emitted (load_gptq_model s)) (EvCall c (Raised e)).
Proof.
  unfold load_gptq_model. do 3 exec_step.
  destruct (Str.endswith _ _); exec_run; intros H;
    try discriminate H; injection H as <-; eexists; solve_ends_with.
Qed.

Lemma gptq_exited (s : State) (n : Z) :
  out (load_gptq_model s) = Exited n ->
  exists c, ends_with (emitted (load_gptq_model s)) (EvCall c (Exited n)).
Proof.
  unfold load_gptq_model. do 3 exec_step.
  destruct (Str.endswith _ _); exec_run; intros H;
    try discriminate H; injection H as <-; eexists; solve_ends_with.
Qed.

Lemma gptq_unguarded (s : State) (c : call) (e : exn) :
  In (EvCall c (Raised e)) (emitted (load_gptq_model s)) ->
  out (load_gptq_model s) = Raised e.
Proof.
  unfold load_gptq_model. do 3 exec_step.
  destruct (Str.endswith _ _); exec_run; intros H; event_cases H;
    reflexivity.
Qed.

End Endings.

(** ** The chain and what follows it *)

Section Chain.
Context `{RT : Runtime}.

(** The chain runs one strategy or emits nothing. *)
Lemma dispatch_events (s : State) (ev : event) :
  In ev (emitted (dispatch s)) ->
  In ev (emitted (load_huggingface_model s))
  \/ In ev (emitted (load_huggingface_llama_model s))
  \/ In ev (emitted (load_gptq_model s)).
Proof.
  rewrite dispatch_chain. cbv zeta.
  destruct (String.eqb _ "huggingface"); [now left|].
  destruct (String.eqb _ "huggingface-llama"); [now right; left|].
  destruct (String.eqb _ "gptq"); [now right; right|].
  destruct (String.eqb _ "ggml"); intros [].
Qed.

Lemma dispatch_raised (s : State) (e : exn) :
  out (dispatch s) = Raised e ->
  (emitted (dispatch s) = []
   /\ (e = mkExn NotImplementedError ggml_message
       \/ e = mkExn AttributeError unsupported_message))
  \/ exists c, ends_with (emitted (dispatch s)) (EvCall c (Raised e)).
Proof.
  rewrite dispatch_chain. cbv zeta.
  destruct (String.eqb _ "huggingface").
  { intros H. right. destruct (huggingface_raised s e H) as (c & Hc & _).
    now exists c. }
  destruct (String.eqb _ "huggingface-llama").
  { intros H. right. now apply huggingface_llama_raised. }
  destruct (String.eqb _ "gptq").
  { intros H. right. now apply gptq_raised. }
  destruct (String.eqb _ "ggml"); intros [= <-]; left; split; auto.
Qed.

(** The events of [load_model]: those of the chain, then the fetch of
    the generation configuration, the two calls of [create_pipeline] and
    the closing record. *)
Lemma load_model_events (s : State) (ev : event) :
  In ev (emitted (load_model s)) ->
  In ev (emitted (dispatch s))
  \/ (exists r,
        ev = EvCall (mkCall GenerationConfig_from_pretrained
                            [VStr (model_repository (self s))] ∅) r)
  \/ (exists c r,
        ev = EvCall c r
        /\ (call_fn c = pipeline \/ call_fn c = HuggingFacePipeline))
  \/ ev = EvLog INFO "Local LLM Loaded".
Proof.
  assert (model_repository (self (final (dispatch s)))
          = model_repository (self s)) as Hrepo
    by (destruct (dispatch_final_self s) as [-> | [_ ->]]; reflexivity).
  unfold load_model, create_pipeline. rewrite bind_run.
  destruct (out (dispatch s)) as [[model tokenizer]|e|n];
    [|now left..].
  exec_run; intros H; apply in_app_or in H as [H|H];
    try (now left); right; cbn [app In] in H;
    repeat match type of H with
           | _ \/ _ => destruct H as [H|H]
           | False => contradiction
           end; subst ev;
    first [ left; eexists; rewrite <- Hrepo; reflexivity
          | right; left; do 2 eexists; split; [reflexivity|];
            cbn [call_fn]; tauto
          | right; right; reflexivity ].
Qed.

(** An exception out of [load_model] is one of the two failures of the
    chain, raised before any event, or the exception of the last
    external call. *)
Lemma load_model_raised (s : State) (e : exn) :
  out (load_model s) = Raised e ->
  (emitted (load_model s) = []
   /\ (e = mkExn NotImplementedError ggml_message
       \/ e = mkExn AttributeError unsupported_message))
  \/ exists c, ends_with (emitted (load_model s)) (EvCall c (Raised e)).
Proof.
  unfold load_model, create_pipeline. rewrite bind_run.
  destruct (out (dispatch s)) as [[model tokenizer]|e'|n] eqn:Hd.
  - exec_run; intros H; try discriminate H; injection H as <-;
      right; eexists; apply ends_with_prepend; solve_ends_with.
  - cbn [out emitted]. intros [= <-]. now apply dispatch_raised.
  - discriminate.
Qed.

End Chain.

(** ** The fixed options and the arguments of the calls *)

Section MoreOptions.

Lemma huggingface_kwargs_static (dev : string) :
  huggingface_kwargs dev !! "low_cpu_mem_usage" = Some (VBool true)
  /\ huggingface_kwargs dev !! "resume_download" = Some (VBool true)
  /\ huggingface_kwargs dev !! "trust_remote_code" = Some (VBool false)
  /\ huggingface_kwargs dev !! "config" = None.
Proof.
  unfold huggingface_kwargs, dict_literal. cbn [foldl fst snd].
  destruct (negb _); repeat split;
    repeat (rewrite lookup_insert_ne by discriminate);
    first [apply lookup_insert_eq | apply lookup_empty].
Qed.

Lemma huggingface_kwargs_dom (dev : string) :
  dom (huggingface_kwargs dev)
  = if String.eqb dev "cpu"
    then list_to_set ["low_cpu_mem_usage"; "resume_download";
                      "trust_remote_code"]
    else list_to_set ["low_cpu_mem_usage"; "resume_download";
                      "trust_remote_code"; "device_map"; "torch_dtype"].
Proof.
  unfold huggingface_kwargs. destruct (String.eqb dev "cpu"); reflexivity.
Qed.

Lemma gptq_kwargs_static (dev name : string) (triton : bool) :
  let kwargs := gptq_kwargs dev name triton in
  kwargs !! "low_cpu_mem_usage" = Some (VBool true)
  /\ kwargs !! "resume_download" = Some (VBool true)
  /\ kwargs !! "trust_remote_code" = Some (VBool false)
  /\ kwargs !! "use_safetensors" = Some (VBool true)
  /\ kwargs !! "device_map" = Some (VStr "auto").
Proof.
  cbv zeta. unfold gptq_kwargs, dict_literal. cbn [foldl fst snd].
  destruct (negb _); repeat split;
    repeat (rewrite lookup_insert_ne by discriminate);
    apply lookup_insert_eq.
Qed.

Lemma gptq_kwargs_dom (dev name : string) (triton : bool) :
  dom (gptq_kwargs dev name triton)
  = if String.eqb dev "cpu"
    then list_to_set ["low_cpu_mem_usage"; "resume_download";
                      "trust_remote_code"; "use_safetensors"; "device_map";
                      "model_safetensors"]
    else list_to_set ["low_cpu_mem_usage"; "resume_download";
                      "trust_remote_code"; "use_safetensors"; "device_map";
                      "model_safetensors"; "use_cuda_fp16"; "use_triton";
                      "device"].
Proof.
  unfold gptq_kwargs. destruct (String.eqb dev "cpu"); reflexivity.
Qed.

End MoreOptions.

(** The cases of [In ev evs] for an explicit list [evs] and a log record
    or a call [ev]; the texts of the records are compared letter by
    letter. *)
Ltac record_cases H :=
  cbn [app In] in H;
  repeat match type of H with
         | _ \/ _ => destruct H as [H|H]
         | False => contradiction
         | EvCall _ _ = EvLog _ _ => discriminate H
         | EvLog _ _ = EvCall _ _ => discriminate H
         | EvLog _ _ = EvLog _ _ => vm_compute in H; discriminate H
         end.

Section Arguments.
Context `{RT : Runtime}.

Lemma huggingface_call_args (s : State) (c : call) (r : outcome value) :
  In (EvCall c r) (emitted (load_huggingface_model s)) ->
  loads_from_repository (call_fn c) = true ->
  call_args c = [VStr (model_repository (self s))].
Proof.
  unfold load_huggingface_model. exec_run; intros H Hfn; event_cases H;
    try reflexivity; discriminate Hfn.
Qed.

Lemma huggingface_llama_call (s : State) (c : call) (r : outcome value) :
  In (EvCall c r) (emitted (load_huggingface_llama_model s)) ->
  call_args c = [VStr (model_repository (self s))] /\ call_kwargs c = ∅.
Proof.
  unfold load_huggingface_llama_model. exec_run; intros H; event_cases H;
    split; reflexivity.
Qed.

Lemma gptq_call_args (s : State) (c : call) (r : outcome value) :
  In (EvCall c r) (emitted (load_gptq_model s)) ->
  call_args c = [VStr (model_repository (self s))].
Proof.
  unfold load_gptq_model. do 3 exec_step.
  destruct (Str.endswith _ _); exec_run; intros H; event_cases H;
    reflexivity.
Qed.

(** No strategy writes the closing record of [load_model]. *)
Lemma huggingface_no_closing_record (s : State) :
  ~ In (EvLog INFO "Local LLM Loaded") (emitted (load_huggingface_model s)).
Proof.
  unfold load_huggingface_model. exec_run; intros H; record_cases H.
Qed.

Lemma huggingface_llama_no_closing_record (s : State) :
  ~ In (EvLog INFO "Local LLM Loaded")
       (emitted (load_huggingface_llama_model s)).
Proof.
  unfold load_huggingface_llama_model. exec_run; intros H; record_cases H.
Qed.

Lemma gptq_no_closing_record (s : State) :
  ~ In (EvLog INFO "Local LLM Loaded") (emitted (load_gptq_model s)).
Proof.
  unfold load_gptq_model. do 3 exec_step.
  destruct (Str.endswith _ _); exec_run; intros H; record_cases H.
Qed.

End Arguments.

Section ChainEndings.
Context `{RT : Runtime}.

Lemma dispatch_exited (s : State) (n : Z) :
  out (dispatch s) = Exited n ->
  (exists c, ends_with (emitted (dispatch s)) (EvCall c (Exited n)))
  \/ (n = 1
      /\ Str.lower (model_type (self s)) = "huggingface"
      /\ exists c e,
          In (EvCall c (Raised e)) (emitted (dispatch s))
          /\ call_fn c = AutoModelForCausalLM_from_pretrained
          /\ exn_cls e = OutOfMemoryError).
Proof.
  rewrite dispatch_chain. cbv zeta.
  destruct (String.eqb_spec (Str.lower (model_type (self s))) "huggingface")
    as [Hm|_].
  { intros H. destruct (huggingface_exited s n H)
      as [Hc | (-> & before & c & e & Hfn & Hcls & Hevs)]; [now left|].
    right. split; [reflexivity|]. split; [exact Hm|].
    exists c, e. split; [|now split].
    rewrite Hevs. apply in_or_app. right. now left. }
  destruct (String.eqb _ "huggingface-llama").
  { intros H. left. now apply huggingface_llama_exited. }
  destruct (String.eqb _ "gptq").
  { intros H. left. now apply gptq_exited. }
  destruct (String.eqb _ "ggml"); discriminate.
Qed.

Lemma load_model_exited (s : State) (n : Z) :
  out (load_model s) = Exited n ->
  (exists c, ends_with (emitted (load_model s)) (EvCall c (Exited n)))
  \/ (n = 1
      /\ Str.lower (model_type (self s)) = "huggingface"
      /\ exists c e,
          In (EvCall c (Raised e)) (emitted (load_model s))
          /\ call_fn c = AutoModelForCausalLM_from_pretrained
          /\ exn_cls e = OutOfMemoryError).
Proof.
  unfold load_model, create_pipeline. rewrite bind_run.
  destruct (out (dispatch s)) as [[model tokenizer]|e'|n'] eqn:Hd.
  - exec_run; intros H; try discriminate H; injection H as <-;
      left; eexists; apply ends_with_prepend; solve_ends_with.
  - discriminate.
  - cbn [out emitted]. intros [= <-]. now apply dispatch_exited.
Qed.

End ChainEndings.

(** ** Further properties of the loader *)

Section Extras.
Context `{RT : Runtime}.

(** X1. Constructing a loader from the five values a constructed loader
    stores gives the same five values: what [__init__] stores is stable
    under [__init__], whatever the defaults and whatever [self] held
    before. *)
Theorem init_reconstruct `{DF : Defaults} (s0 s1 : State)
    (device model repository safetensors : option string)
    (triton : option bool) :
  let this :=
    self (final (__init__ device model repository safetensors triton s0)) in
  self (final (__init__ (Some (device_type this)) (Some (model_type this))
                        (Some (model_repository this))
                        (Some (model_safetensors this))
                        (Some (use_triton this)) s1))
  = this.
Proof.
  cbv zeta. unfold __init__. rewrite !bind_assign.
  cbn [assign final self device_type model_type model_repository
       model_safetensors use_triton set_use_triton set_model_safetensors
       set_model_repository set_model_type set_device_type].
  rewrite !InitFacts.lower_or_else_stored, !InitFacts.or_else_stored.
  now destruct triton as [[]|].
Qed.

(** X2. Two constructions that differ only in the letter case of the
    [device_type] and [model_type] arguments are the same run of
    [__init__], and [load_model] then runs the same on both. *)
Theorem init_case_insensitive `{DF : Defaults} (s0 : State)
    (device device' model model' : string)
    (repository safetensors : option string) (triton : option bool) :
  Str.lower device = Str.lower device' ->
  Str.lower model = Str.lower model' ->
  __init__ (Some device) (Some model) repository safetensors triton s0
  = __init__ (Some device') (Some model') repository safetensors triton s0
  /\ load_model (final (__init__ (Some device) (Some model) repository
                                 safetensors triton s0))
     = load_model (final (__init__ (Some device') (Some model') repository
                                   safetensors triton s0)).
Proof.
  intros Hd Hm.
  assert (__init__ (Some device) (Some model) repository safetensors triton s0
          = __init__ (Some device') (Some model') repository safetensors
                     triton s0) as Heq.
  { unfold __init__. rewrite !bind_assign.
    cbn [assign final self device_type model_type model_repository
         model_safetensors use_triton set_use_triton set_model_safetensors
         set_model_repository set_model_type set_device_type].
    rewrite (InitFacts.lower_or_else_case device device' _ Hd).
    now rewrite (InitFacts.lower_or_else_case model model' _ Hm). }
  split; [exact Heq | now rewrite Heq].
Qed.

(** X3. When the full-model strategy raises, the exception is the one
    its last external call raised, and if that call is the model
    loader's the exception is not an [OutOfMemoryError]. When it ends
    the process, either its last external call did, or the status is 1
    and the events end with an [OutOfMemoryError] of the model loader
    and the two error records. *)
Theorem huggingface_failure_origin (s : State) :
  (forall e,
     out (load_huggingface_model s) = Raised e ->
     exists c,
       ends_with (emitted (load_huggingface_model s)) (EvCall c (Raised e))
       /\ (call_fn c = AutoModelForCausalLM_from_pretrained ->
           exn_cls e <> OutOfMemoryError))
  /\ (forall n,
        out (load_huggingface_model s) = Exited n ->
        (exists c, ends_with (emitted (load_huggingface_model s))
                             (EvCall c (Exited n)))
        \/ (n = 1
            /\ exists before c e,
                call_fn c = AutoModelForCausalLM_from_pretrained
                /\ exn_cls e = OutOfMemoryError
                /\ emitted (load_huggingface_model s)
                   = (before
                      ++ [EvCall c (Raised e);
                          EvLog ERROR
                            "Encountered CUDA out of memory error while loading the model.";
                          EvLog ERROR (exn_msg e)])%list)).
Proof.
  split.
  - intros e H. destruct (huggingface_raised s e H) as (c & Hc & Hoom).
    exists c. split; [exact Hc|]. intros Hfn Hcls.
    specialize (Hoom Hfn). unfold is_OutOfMemoryError in Hoom.
    rewrite Hcls in Hoom. discriminate.
  - intros n. apply huggingface_exited.
Qed.

(** X4. The guard of the full-model strategy covers the call of the
    model loader alone: an exception raised by any other of its calls,
    an [OutOfMemoryError] included, is the outcome of the strategy, and
    of a [load_model] that runs it. *)
Theorem huggingface_guard_covers_model_loader_only (s : State) (c : call)
    (e : exn) :
  In (EvCall c (Raised e)) (emitted (load_huggingface_model s)) ->
  call_fn c <> AutoModelForCausalLM_from_pretrained ->
  out (load_huggingface_model s) = Raised e
  /\ (Str.lower (model_type (self s)) = "huggingface" ->
      out (load_model s) = Raised e
      /\ emitted (load_model s) = emitted (load_huggingface_model s)).
Proof.
  intros Hin Hfn.
  pose proof (huggingface_unguarded s c e Hin Hfn) as Hout.
  split; [exact Hout|]. intros Hm.
  rewrite <- (dispatch_huggingface s Hm) in Hout |- *.
  unfold load_model. rewrite bind_run, Hout. split; reflexivity.
Qed.

(** X5. The Llama strategy and the quantized strategy intercept
    nothing: an exception raised by any of their external calls, an
    [OutOfMemoryError] included, is their outcome, and they end the
    process only when their last external call does. *)
Theorem llama_gptq_intercept_nothing (s : State) :
  (forall c e,
     In (EvCall c (Raised e)) (emitted (load_huggingface_llama_model s)) ->
     out (load_huggingface_llama_model s) = Raised e)
  /\ (forall n,
        out (load_huggingface_llama_model s) = Exited n ->
        exists c, ends_with (emitted (load_huggingface_llama_model s))
                            (EvCall c (Exited n)))
  /\ (forall c e,
        In (EvCall c (Raised e)) (emitted (load_gptq_model s)) ->
        out (load_gptq_model s) = Raised e)
  /\ (forall n,
        out (load_gptq_model s) = Exited n ->
        exists c, ends_with (emitted (load_gptq_model s))
                            (EvCall c (Exited n))).
Proof.
  split; [apply huggingface_llama_unguarded|].
  split; [apply huggingface_llama_exited|].
  split; [apply gptq_unguarded | apply gptq_exited].
Qed.

(** X6. When the full-model strategy returns, it has emitted, in this
    order: its opening record, the load of the configuration, of the
    tokenizer and of the model (the model loader given that very
    configuration), each followed by its record, and then, only when
    the model is not a tuple, the call of [tie_weights] on the model and
    a warning. The pair returned holds the results of the model loader
    and of the tokenizer loader. *)
Theorem huggingface_success_trace (s : State) (model tokenizer : value) :
  out (load_huggingface_model s) = Returned (model, tokenizer) ->
  let repo := model_repository (self s) in
  exists config tail,
    emitted (load_huggingface_model s)
    = ([EvLog INFO "Using AutoModelForCausalLM for full models";
        EvCall (mkCall AutoConfig_from_pretrained [VStr repo] ∅)
               (Returned config);
        EvLog INFO ("Configuration loaded for " ++ repo);
        EvCall (mkCall AutoTokenizer_from_pretrained [VStr repo] ∅)
               (Returned tokenizer);
        EvLog INFO ("Tokenizer loaded for " ++ repo);
        EvCall (mkCall AutoModelForCausalLM_from_pretrained [VStr repo]
                       (<["config" := config]>
                          (huggingface_kwargs (device_type (self s)))))
               (Returned model);
        EvLog INFO ("Model loaded for " ++ repo)] ++ tail)%list
    /\ (isinstance_tuple model = true -> tail = [])
    /\ (isinstance_tuple model = false ->
        exists r,
          tail = [EvCall (mkCall tie_weights [model] ∅) (Returned r);
                  EvLog WARNING
                    "Model Weights Tied: Effectiveness depends on the specific type of model."]).
Proof.
  cbv zeta. unfold load_huggingface_model. exec_run; intros H;
    try discriminate H; injection H as <- <-;
    eexists _, _; (split; [cbn [app]; reflexivity|]); split; intros Ht;
    try congruence; eauto.
Qed.

(** X7. When the Llama strategy returns, it has emitted exactly its
    opening record, the load of the tokenizer and of the model, both
    keyed by [model_repository] and without any option, and their
    records; the pair returned holds the results of the model loader and
    of the tokenizer loader. *)
Theorem huggingface_llama_success_trace (s : State)
    (model tokenizer : value) :
  out (load_huggingface_llama_model s) = Returned (model, tokenizer) ->
  let repo := model_repository (self s) in
  emitted (load_huggingface_llama_model s)
  = [EvLog INFO "Using LlamaTokenizer";
     EvCall (mkCall LlamaTokenizer_from_pretrained [VStr repo] ∅)
            (Returned tokenizer);
     EvLog INFO ("Tokenizer loaded for " ++ repo);
     EvCall (mkCall LlamaForCausalLM_from_pretrained [VStr repo] ∅)
            (Returned model);
     EvLog INFO ("Model loaded for " ++ repo)].
Proof.
  cbv zeta. unfold load_huggingface_llama_model. exec_run; intros H;
    try discriminate H; injection H as <- <-; reflexivity.
Qed.

(** X8. When the quantized strategy returns, it has emitted its two
    opening records, the record of the stripping exactly when
    [model_safetensors] ended with [.safetensors], the load of the fast
    tokenizer and the load of the model with the stripped name among the
    options, each followed by its record. *)
Theorem gptq_success_trace (s : State) (model tokenizer : value) :
  out (load_gptq_model s) = Returned (model, tokenizer) ->
  let repo := model_repository (self s) in
  let name := model_safetensors (self s) in
  emitted (load_gptq_model s)
  = ([EvLog INFO "Using AutoGPTQForCausalLM for quantized models";
      EvLog WARNING "GGML models may supersede GPTQ models in future releases"]
     ++ (if Str.endswith name ".safetensors"
         then [EvLog INFO ("Stripped " ++ strip_safetensors name
                           ++ ". Moving on.")]
         else [])
     ++ [EvCall (mkCall AutoTokenizer_from_pretrained [VStr repo]
                        (dict_literal [("use_fast", VBool true)]))
                (Returned tokenizer);
         EvLog INFO ("Tokenizer loaded for " ++ repo);
         EvCall (mkCall AutoGPTQForCausalLM_from_quantized [VStr repo]
                        (gptq_kwargs (device_type (self s))
                                     (strip_safetensors name)
                                     (use_triton (self s))))
                (Returned model);
         EvLog INFO ("Model loaded for " ++ repo)])%list.
Proof.
  cbv zeta. unfold load_gptq_model, strip_safetensors. do 3 exec_step.
  destruct (Str.endswith _ _); exec_run; intros H;
    try discriminate H; injection H as <- <-; reflexivity.
Qed.

(** X9. Whatever the device, the options of the model loader in the
    full-model strategy enable low CPU memory usage and resumable
    download, disable remote code and carry under [config] the
    configuration that the strategy loaded before; there is no option
    besides these four and, off cpu, [device_map] and [torch_dtype]. *)
Theorem huggingface_fixed_options (s : State) (c : call)
    (r : outcome value) :
  In (EvCall c r) (emitted (load_huggingface_model s)) ->
  call_fn c = AutoModelForCausalLM_from_pretrained ->
  call_kwargs c !! "low_cpu_mem_usage" = Some (VBool true)
  /\ call_kwargs c !! "resume_download" = Some (VBool true)
  /\ call_kwargs c !! "trust_remote_code" = Some (VBool false)
  /\ (exists config,
        call_kwargs c !! "config" = Some config
        /\ In (EvCall (mkCall AutoConfig_from_pretrained
                              [VStr (model_repository (self s))] ∅)
                      (Returned config))
              (emitted (load_huggingface_model s)))
  /\ dom (call_kwargs c)
     = {["config"]}
       ∪ (if String.eqb (device_type (self s)) "cpu"
          then list_to_set ["low_cpu_mem_usage"; "resume_download";
                            "trust_remote_code"]
          else list_to_set ["low_cpu_mem_usage"; "resume_download";
                            "trust_remote_code"; "device_map";
                            "torch_dtype"]).
Proof.
  intros Hin Hfn.
  destruct (huggingface_kwargs_static (device_type (self s)))
    as (Hlow & Hres & Htrust & _).
  assert (exists config,
            c = mkCall AutoModelForCausalLM_from_pretrained
                       [VStr (model_repository (self s))]
                       (<["config" := config]>
                          (huggingface_kwargs (device_type (self s))))
            /\ In (EvCall (mkCall AutoConfig_from_pretrained
                                  [VStr (model_repository (self s))] ∅)
                          (Returned config))
                  (emitted (load_huggingface_model s)))
    as (config & -> & Hcfg).
  { revert Hin Hfn. unfold load_huggingface_model.
    exec_run; intros H Hfn; event_cases H; try discriminate Hfn;
      eexists; (split; [reflexivity|]); cbn [app In]; tauto. }
  cbn [call_kwargs].
  rewrite !(lookup_insert_ne _ "config") by discriminate.
  split; [exact Hlow|]. split; [exact Hres|]. split; [exact Htrust|].
  split.
  - exists config. split; [apply lookup_insert_eq | exact Hcfg].
  - rewrite dom_insert_L, huggingface_kwargs_dom. reflexivity.
Qed.

(** X10. Whatever the device, the options of the model loader in the
    quantized strategy enable low CPU memory usage, resumable download
    and the safetensors format, disable remote code and ask for
    automatic device mapping, also when an explicit device is named;
    there is no option besides these five, [model_safetensors] and, off
    cpu, [use_cuda_fp16], [use_triton] and [device]. The tokenizer is
    asked for in its fast implementation. *)
Theorem gptq_fixed_options (s : State) (c : call) (r : outcome value) :
  In (EvCall c r) (emitted (load_gptq_model s)) ->
  (call_fn c = AutoGPTQForCausalLM_from_quantized ->
   call_kwargs c !! "low_cpu_mem_usage" = Some (VBool true)
   /\ call_kwargs c !! "resume_download" = Some (VBool true)
   /\ call_kwargs c !! "trust_remote_code" = Some (VBool false)
   /\ call_kwargs c !! "use_safetensors" = Some (VBool true)
   /\ call_kwargs c !! "device_map" = Some (VStr "auto")
   /\ dom (call_kwargs c)
      = if String.eqb (device_type (self s)) "cpu"
        then list_to_set ["low_cpu_mem_usage"; "resume_download";
                          "trust_remote_code"; "use_safetensors";
                          "device_map"; "model_safetensors"]
        else list_to_set ["low_cpu_mem_usage"; "resume_download";
                          "trust_remote_code"; "use_safetensors";
                          "device_map"; "model_safetensors";
                          "use_cuda_fp16"; "use_triton"; "device"])
  /\ (call_fn c = AutoTokenizer_from_pretrained ->
      call_kwargs c = dict_literal [("use_fast", VBool true)]
      /\ call_kwargs c !! "use_fast" = Some (VBool true)).
Proof.
  intros Hin. split.
  - intros Hfn. rewrite (gptq_model_call s c r Hin Hfn). cbn [call_kwargs].
    destruct (gptq_kwargs_static (device_type (self s))
                (strip_safetensors (model_safetensors (self s)))
                (use_triton (self s))) as (H1 & H2 & H3 & H4 & H5).
    repeat (split; [assumption|]). apply gptq_kwargs_dom.
  - revert Hin. unfold load_gptq_model. do 3 exec_step.
    destruct (Str.endswith _ _); exec_run; intros H Hfn; event_cases H;
      try discriminate Hfn; split; reflexivity.
Qed.

(** X11. Every call of [load_model] that loads an artefact (a
    configuration, a tokenizer, a model, a generation configuration) has
    the stored [model_repository] as its only positional argument,
    whichever strategy runs and also after the quantized strategy has
    rewritten [model_safetensors]. *)
Theorem load_model_calls_keyed_by_repository (s : State) (c : call)
    (r : outcome value) :
  In (EvCall c r) (emitted (load_model s)) ->
  loads_from_repository (call_fn c) = true ->
  call_args c = [VStr (model_repository (self s))].
Proof.
  intros Hin Hload.
  apply load_model_events in Hin
    as [Hin | [[r' Hev] | [(c' & r' & Hev & Hfn) | Hev]]].
  - apply dispatch_events in Hin as [Hin | [Hin | Hin]].
    + now apply (huggingface_call_args s c r).
    + now apply (huggingface_llama_call s c r).
    + now apply (gptq_call_args s c r).
  - injection Hev as -> _. reflexivity.
  - injection Hev as <- _. destruct Hfn as [Hfn | Hfn];
      rewrite Hfn in Hload; discriminate.
  - discriminate.
Qed.

(** X12. The quantized strategy strips one suffix per run: run a second
    time on the state the first run left, it leaves in
    [model_safetensors] the value stripped twice, so a name ending with
    [.safetensors.safetensors] loses one suffix in each run, and the
    second run leaves [self] as the first did exactly when the stripped
    name does not end with [.safetensors] itself. *)
Theorem gptq_second_run (s : State) :
  let name := model_safetensors (self s) in
  let first := load_gptq_model s in
  let second := load_gptq_model (final first) in
  model_safetensors (self (final second))
  = strip_safetensors (strip_safetensors name)
  /\ (self (final second) = self (final first)
      <-> ~ exists q, strip_safetensors name = q ++ ".safetensors")
  /\ (forall p,
        name = (p ++ ".safetensors") ++ ".safetensors" ->
        model_safetensors (self (final first)) = p ++ ".safetensors"
        /\ model_safetensors (self (final second)) = p).
Proof.
  cbv zeta. rewrite !gptq_final_self.
  cbn [model_safetensors set_model_safetensors device_type model_type
       model_repository use_triton].
  split; [reflexivity|]. split; [split|].
  - intros Heq [q Hq].
    apply (f_equal model_safetensors) in Heq.
    cbn [model_safetensors] in Heq.
    rewrite Hq, strip_safetensors_suffix in Heq.
    apply (f_equal String.length) in Heq.
    unfold set_model_safetensors in Heq. simpl in Heq.
    rewrite StrFacts.length_append in Heq. simpl in Heq. lia.
  - intros Hno. now rewrite (strip_safetensors_other _ Hno).
  - intros p ->.
    rewrite (strip_safetensors_suffix (p ++ ".safetensors")).
    split; [reflexivity | apply strip_safetensors_suffix].
Qed.

(** X13. [load_model] translates no failure. An exception it raises is
    one of the two failures of its own chain, raised before any event,
    or the exception that its last external call raised. When it ends
    the process, either its last external call did, or the status is 1,
    the strategy is the full-model one and its model loader raised an
    [OutOfMemoryError]. *)
Theorem load_model_failure_origin (s : State) :
  (forall e,
     out (load_model s) = Raised e ->
     (emitted (load_model s) = []
      /\ (e = mkExn NotImplementedError ggml_message
          \/ e = mkExn AttributeError unsupported_message))
     \/ exists c, ends_with (emitted (load_model s)) (EvCall c (Raised e)))
  /\ (forall n,
        out (load_model s) = Exited n ->
        (exists c, ends_with (emitted (load_model s)) (EvCall c (Exited n)))
        \/ (n = 1
            /\ Str.lower (model_type (self s)) = "huggingface"
            /\ exists c e,
                In (EvCall c (Raised e)) (emitted (load_model s))
                /\ call_fn c = AutoModelForCausalLM_from_pretrained
                /\ exn_cls e = OutOfMemoryError)).
Proof.
  split; [intros e; apply load_model_raised
         | intros n; apply load_model_exited].
Qed.

(** X14. A loader constructed with a [device_type] argument that reads
    cpu in any letter case is loaded as on cpu: the model loader of the
    full-model strategy gets neither [device_map] nor [torch_dtype],
    the one of the quantized strategy none of [use_cuda_fp16],
    [use_triton] and [device]. *)
Theorem constructed_cpu_any_case `{DF : Defaults} (s0 : State)
    (device : string) (model repository safetensors : option string)
    (triton : option bool) (c : call) (r : outcome value) :
  Str.lower device = "cpu" ->
  let s := final (__init__ (Some device) model repository safetensors
                           triton s0) in
  (In (EvCall c r) (emitted (load_huggingface_model s)) ->
   call_fn c = AutoModelForCausalLM_from_pretrained ->
   call_kwargs c !! "device_map" = None
   /\ call_kwargs c !! "torch_dtype" = None)
  /\ (In (EvCall c r) (emitted (load_gptq_model s)) ->
      call_fn c = AutoGPTQForCausalLM_from_quantized ->
      call_kwargs c !! "use_cuda_fp16" = None
      /\ call_kwargs c !! "use_triton" = None
      /\ call_kwargs c !! "device" = None).
Proof.
  intros Hd s.
  assert (device_type (self s) = "cpu") as Hcpu.
  { subst s. unfold __init__. rewrite !bind_assign.
    cbn [assign final self device_type set_use_triton set_model_safetensors
         set_model_repository set_model_type set_device_type].
    rewrite StrFacts.or_else_present; [assumption|].
    apply StrFacts.lower_nonempty. rewrite Hd. discriminate. }
  split.
  - intros Hin Hfn.
    destruct (huggingface_model_call s c r Hin Hfn) as [config ->].
    cbn [call_kwargs]. rewrite !(lookup_insert_ne _ "config") by discriminate.
    rewrite Hcpu. apply huggingface_kwargs_cpu.
  - intros Hin Hfn. rewrite (gptq_model_call s c r Hin Hfn).
    cbn [call_kwargs]. rewrite Hcpu. apply gptq_kwargs_cpu.
Qed.

(** X15. The record [Local LLM Loaded] is among the events of
    [load_model] exactly when [load_model] returns, and it is then the
    last event. *)
Theorem closing_record_iff_returned (s : State) :
  (In (EvLog INFO "Local LLM Loaded") (emitted (load_model s))
   <-> exists local_llm, out (load_model s) = Returned local_llm)
  /\ (forall local_llm,
        out (load_model s) = Returned local_llm ->
        ends_with (emitted (load_model s)) (EvLog INFO "Local LLM Loaded")).
Proof.
  assert (~ In (EvLog INFO "Local LLM Loaded") (emitted (dispatch s)))
    as Hnone.
  { intros Hin. apply dispatch_events in Hin as [Hin | [Hin | Hin]].
    - now apply (huggingface_no_closing_record s).
    - now apply (huggingface_llama_no_closing_record s).
    - now apply (gptq_no_closing_record s). }
  revert Hnone. unfold load_model, create_pipeline. rewrite bind_run.
  destruct (out (dispatch s)) as [[model tokenizer]|e|n].
  - exec_run; intros Hnone; (split; [split|]).
    all: try (intros H; apply in_app_or in H as [H|H];
              [contradiction | record_cases H]).
    all: try (intros [local_llm H]; discriminate H).
    all: try (intros local_llm H; discriminate H).
    + eexists. reflexivity.
    + intros _. apply in_or_app. right. cbn [app In]. tauto.
    + intros local_llm _. apply ends_with_prepend. solve_ends_with.
  - cbn [out emitted]. intros Hnone. split; [split|].
    + contradiction.
    + intros [local_llm H]. discriminate H.
    + intros local_llm H. discriminate H.
  - cbn [out emitted]. intros Hnone. split; [split|].
    + contradiction.
    + intros [local_llm H]. discriminate H.
    + intros local_llm H. discriminate H.
Qed.

End Extras.

(** ** The further properties at work *)

Module ExtraWitnesses.
Import Simulation Faults.

Lemma init_case_insensitive_witness :
  let s0 := fresh (loader "x" "x" "x" "x" true) in
  __init__ (DF := lowercase_defaults)
           (Some "CUDA") (Some "GPTQ") None None None s0
  = __init__ (DF := lowercase_defaults)
             (Some "cuda") (Some "GptQ") None None None s0.
Proof.
  intros s0.
  exact (proj1 (init_case_insensitive
                  (RT := fresh_runtime) (DF := lowercase_defaults) s0
                  "CUDA" "cuda" "GPTQ" "GptQ" None None None
                  eq_refl eq_refl)).
Defined.

Lemma huggingface_failure_origin_witness :
  let s := failing AutoTokenizer_from_pretrained network_down
                   (loader "cuda" "huggingface" "repo" "weights" false) in
  exists c,
    ends_with (emitted (load_huggingface_model s))
              (EvCall c (Raised network_down)).
Proof.
  intros s.
  destruct (huggingface_failure_origin
              (RT := raising_runtime AutoTokenizer_from_pretrained
                                     network_down) s) as [Hraised _].
  destruct (Hraised network_down eq_refl) as (c & Hc & _).
  exists c. exact Hc.
Defined.

Lemma huggingface_guard_covers_model_loader_only_witness :
  let s := failing tie_weights cuda_oom
                   (loader "cpu" "huggingface" "repo" "weights" false) in
  out (load_huggingface_model s) = Raised cuda_oom
  /\ out (load_model s) = Raised cuda_oom.
Proof.
  intros s.
  assert (In (EvCall (mkCall tie_weights [VObj 2] ∅) (Raised cuda_oom))
             (emitted (load_huggingface_model s))) as Hin
    by (vm_compute; do 7 right; left; reflexivity).
  destruct (huggingface_guard_covers_model_loader_only
              (RT := raising_runtime tie_weights cuda_oom) s _ cuda_oom Hin
              ltac:(discriminate))
    as [Hout Hload].
  split; [exact Hout|]. now apply Hload.
Defined.

Lemma llama_gptq_intercept_nothing_witness :
  let s := failing LlamaForCausalLM_from_pretrained cuda_oom
                   (loader "cuda" "huggingface-llama" "repo" "weights"
                           false) in
  out (load_huggingface_llama_model s) = Raised cuda_oom.
Proof.
  intros s.
  destruct (llama_gptq_intercept_nothing
              (RT := raising_runtime LlamaForCausalLM_from_pretrained
                                     cuda_oom) s) as [Hllama _].
  apply (Hllama (mkCall LlamaForCausalLM_from_pretrained [VStr "repo"] ∅)).
  vm_compute. do 3 right. left. reflexivity.
Defined.

Lemma huggingface_success_trace_witness :
  (exists r,
     In (EvCall (mkCall tie_weights [VObj 2] ∅) (Returned r))
        (emitted (load_huggingface_model
                    (fresh (loader "cpu" "huggingface" "repo" "weights"
                                   false)))))
  /\ length (emitted (load_huggingface_model
                        (paired (loader "cpu" "huggingface" "repo" "weights"
                                        false))))
     = 7%nat.
Proof.
  split.
  - destruct (huggingface_success_trace (RT := fresh_runtime)
                (fresh (loader "cpu" "huggingface" "repo" "weights" false))
                (VObj 2) (VObj 1) eq_refl)
      as (config & tail & Hevs & _ & Htie).
    destruct (Htie eq_refl) as [r ->].
    exists r. rewrite Hevs. apply in_or_app. right. left. reflexivity.
  - destruct (huggingface_success_trace (RT := tuple_runtime)
                (paired (loader "cpu" "huggingface" "repo" "weights" false))
                (VTuple [VObj 2; VNone]) (VObj 1) eq_refl)
      as (config & tail & Hevs & Hnone & _).
    rewrite Hevs, (Hnone eq_refl). reflexivity.
Defined.

Lemma huggingface_llama_success_trace_witness :
  length (emitted (load_huggingface_llama_model
                     (fresh (loader "cuda" "huggingface-llama" "repo"
                                    "weights" false))))
  = 5%nat.
Proof.
  rewrite (huggingface_llama_success_trace (RT := fresh_runtime)
             (fresh (loader "cuda" "huggingface-llama" "repo" "weights"
                            false))
             (VObj 1) (VObj 0) eq_refl).
  reflexivity.
Defined.

Lemma gptq_success_trace_witness :
  In (EvLog INFO "Stripped weights. Moving on.")
     (emitted (load_gptq_model
                 (fresh (loader "cuda" "gptq" "repo" "weights.safetensors"
                                true)))).
Proof.
  rewrite (gptq_success_trace (RT := fresh_runtime)
             (fresh (loader "cuda" "gptq" "repo" "weights.safetensors" true))
             (VObj 1) (VObj 0) eq_refl).
  vm_compute. do 2 right. left. reflexivity.
Defined.

Lemma huggingface_fixed_options_witness :
  let c := mkCall AutoModelForCausalLM_from_pretrained [VStr "repo"]
                  (<["config" := VObj 0]> (huggingface_kwargs "cuda")) in
  call_kwargs c !! "trust_remote_code" = Some (VBool false)
  /\ call_kwargs c !! "resume_download" = Some (VBool true).
Proof.
  intros c.
  assert (In (EvCall c (Returned (VObj 2)))
             (emitted (load_huggingface_model
                         (fresh (loader "cuda" "huggingface" "repo" "weights"
                                        false))))) as Hin
    by (vm_compute; do 5 right; left; reflexivity).
  destruct (huggingface_fixed_options (RT := fresh_runtime) _ c _ Hin eq_refl)
    as (_ & Hresume & Htrust & _).
  split; [exact Htrust | exact Hresume].
Defined.

Lemma gptq_fixed_options_witness :
  let c := mkCall AutoGPTQForCausalLM_from_quantized [VStr "repo"]
                  (gptq_kwargs "cuda" "weights" true) in
  call_kwargs c !! "device_map" = Some (VStr "auto")
  /\ call_kwargs c !! "trust_remote_code" = Some (VBool false).
Proof.
  intros c.
  assert (In (EvCall c (Returned (VObj 1)))
             (emitted (load_gptq_model
                         (fresh (loader "cuda" "gptq" "repo" "weights"
                                        true))))) as Hin
    by (vm_compute; do 4 right; left; reflexivity).
  destruct (gptq_fixed_options (RT := fresh_runtime) _ c _ Hin)
    as [Hmodel _].
  destruct (Hmodel eq_refl) as (_ & _ & Htrust & _ & Hmap & _).
  split; [exact Hmap | exact Htrust].
Defined.

Lemma load_model_calls_keyed_by_repository_witness :
  let c := mkCall GenerationConfig_from_pretrained [VStr "repo"] ∅ in
  call_args c = [VStr "repo"].
Proof.
  intros c.
  apply (load_model_calls_keyed_by_repository (RT := fresh_runtime)
           (fresh (loader "cpu" "gptq" "repo" "weights.safetensors" false))
           c (Returned (VObj 2))).
  - vm_compute. do 7 right. left. reflexivity.
  - reflexivity.
Defined.

Lemma gptq_second_run_witness :
  let first := load_gptq_model
                 (fresh (loader "cpu" "gptq" "repo"
                                "weights.safetensors.safetensors" false)) in
  let second := load_gptq_model (final first) in
  model_safetensors (self (final first)) = "weights.safetensors"
  /\ model_safetensors (self (final second)) = "weights".
Proof.
  destruct (gptq_second_run (RT := fresh_runtime)
              (fresh (loader "cpu" "gptq" "repo"
                             "weights.safetensors.safetensors" false)))
    as (_ & _ & Htwice).
  exact (Htwice "weights" eq_refl).
Defined.

Lemma load_model_failure_origin_witness :
  let s := failing pipeline network_down
                   (loader "cpu" "huggingface" "repo" "weights" false) in
  exists c, ends_with (emitted (load_model s)) (EvCall c (Raised network_down)).
Proof.
  intros s.
  destruct (load_model_failure_origin (RT := raising_runtime pipeline
                                                            network_down) s)
    as [Hraised _].
  destruct (Hraised network_down eq_refl) as [[Hnil _] | Hlast].
  - vm_compute in Hnil. discriminate Hnil.
  - exact Hlast.
Defined.

Lemma constructed_cpu_any_case_witness :
  let c := mkCall AutoModelForCausalLM_from_pretrained [VStr "repo"]
                  (<["config" := VObj 0]> (huggingface_kwargs "cpu")) in
  call_kwargs c !! "device_map" = None
  /\ call_kwargs c !! "torch_dtype" = None.
Proof.
  intros c.
  refine (proj1 (constructed_cpu_any_case
                   (RT := fresh_runtime) (DF := lowercase_defaults)
                   (fresh (loader "x" "x" "x" "x" true))
                   "CPU" (Some "huggingface") (Some "repo") None None
                   c (Returned (VObj 2)) eq_refl) _ eq_refl).
  vm_compute. do 5 right. left. reflexivity.
Defined.

Lemma closing_record_iff_returned_witness :
  In (EvLog INFO "Local LLM Loaded")
     (emitted (load_model
                 (fresh (loader "cpu" "huggingface" "repo" "weights" false)))).
Proof.
  apply (closing_record_iff_returned (RT := fresh_runtime)
           (fresh (loader "cpu" "huggingface" "repo" "weights" false))).
  exists (VObj 6). reflexivity.
Defined.

End ExtraWitnesses.
